(** * update_schedule.py: the fetch / resolve / aggregate / diff pipeline

    A shallow embedding of [src/update_schedule.py] and the properties its
    specification states about it.

    - JSON documents (what [json.loads] / [response.json()] return) are the
      inductive type [json]; a Python [dict] is an association list in
      insertion order.  Numbers are integers: the float literals of JSON and
      the fractional part of [time.time() * 1000] are outside the embedding,
      the clock is read in whole milliseconds.  An integer date is an operand
      of float arithmetic: beyond the range of a float its conversion raises
      OverflowError, within it the arithmetic is taken to be exact.
    - Python exceptions are the [Raise] results of an error monad; effects
      (clock, network, the two files) are threaded through a state monad [M].
    - What the interpreter and its libraries provide (the clock, the network,
      [hashlib.md5], [json.dumps], [json.loads], [datetime]) is the interface
      [Host]; every theorem holds for every host. *)

From Stdlib Require Import ZArith List String Ascii Bool Lia DecimalString.
From Stdlib Require Import Permutation Sorted OrderedTypeEx.
Import ListNotations.
Open Scope string_scope.
Open Scope Z_scope.

(** ** JSON values and the Python operations the script applies to them *)

#[warnings="-register-all"]
Inductive json : Type :=
| JNull
| JBool (b : bool)
| JNum (n : Z)
| JStr (s : string)
| JList (items : list json)
| JObj (fields : list (string * json)).

Definition dict := list (string * json).

Inductive exn : Type :=
| AttributeError      (* [.get] on a value that is not a dict *)
| TypeError           (* arithmetic, [len] or iteration on the wrong type *)
| KeyError
| OverflowError       (* an int too large for a float; a timestamp out of
                         the platform's range *)
| ValueError          (* [datetime.fromtimestamp]: year out of range *)
| OSError             (* [datetime.fromtimestamp]: the C library refuses *)
| JSONDecodeError
| HTTPError           (* [raise_for_status] *)
| RequestException.   (* timeout, connection failure *)

Inductive result (A : Type) : Type :=
| Ok (a : A)
| Raise (e : exn).
Arguments Ok {A} a.
Arguments Raise {A} e.

Definition rbind {A B} (r : result A) (k : A -> result B) : result B :=
  match r with
  | Ok a => k a
  | Raise e => Raise e
  end.

Notation "'let?' x ':=' r 'in' k" := (rbind r (fun x => k))
  (at level 10, x name, r at level 100, k at level 200).

Fixpoint lookup (k : string) (d : dict) : option json :=
  match d with
  | [] => None
  | (k', v) :: rest => if String.eqb k k' then Some v else lookup k rest
  end.

(** [o.get(k, default)]; only dicts have the method. *)
Definition py_get (o : json) (k : string) (default : json) : result json :=
  match o with
  | JObj d => Ok (match lookup k d with Some v => v | None => default end)
  | _ => Raise AttributeError
  end.

(** [o[k]] as the sort key uses it. *)
Definition py_getitem (o : json) (k : string) : result json :=
  match o with
  | JObj d => match lookup k d with Some v => Ok v | None => Raise KeyError end
  | _ => Raise TypeError
  end.

(** Truth value of a Python object. *)
Definition py_truthy (v : json) : bool :=
  match v with
  | JNull => false
  | JBool b => b
  | JNum n => negb (n =? 0)
  | JStr s => negb (String.eqb s EmptyString)
  | JList l => match l with [] => false | _ => true end
  | JObj d => match d with [] => false | _ => true end
  end.

(** [a or b] *)
Definition py_or (a b : json) : json := if py_truthy a then a else b.

(** The integers [float(n)] accepts: those that round to a finite double,
    [|n| < 2^1024 - 2^970]. *)
Definition FLOAT_LIMIT : Z := Eval vm_compute in (2 ^ 1024 - 2 ^ 970).

Definition fits_float (n : Z) : bool := Z.abs n <? FLOAT_LIMIT.

(** The numeric value of [v] as the operand of [float - v] and of [v / 1000]
    that the date is: an [int], converted to a float (OverflowError when it
    does not fit), and a [bool] as its subclass. *)
Definition py_num (v : json) : result Z :=
  match v with
  | JNum n => if fits_float n then Ok n else Raise OverflowError
  | JBool b => Ok (if b then 1 else 0)
  | _ => Raise TypeError
  end.

(** [len(v)] *)
Definition py_len (v : json) : result Z :=
  match v with
  | JStr s => Ok (Z.of_nat (String.length s))
  | JList l => Ok (Z.of_nat (List.length l))
  | JObj d => Ok (Z.of_nat (List.length d))
  | _ => Raise TypeError
  end.

(** What a [for] loop over [v] visits: the items of a list, the keys of a
    dict, the characters of a string (taken per byte here). *)
Definition py_iter (v : json) : result (list json) :=
  match v with
  | JList l => Ok l
  | JObj d => Ok (map (fun kv => JStr (fst kv)) d)
  | JStr s => Ok (map (fun c => JStr (String c EmptyString)) (list_ascii_of_string s))
  | _ => Raise TypeError
  end.

Definition str_of_Z (n : Z) : string := NilZero.string_of_int (Z.to_int n).

Definition newline : string := String (ascii_of_nat 10) EmptyString.

(** ** The host: interpreter, libraries and outside world *)

(** What [requests.get] comes back with: an exception (timeout, refused
    connection, ...) or a response with its status code and body text. *)
Inductive http_outcome : Type :=
| Failed
| Response (status_code : Z) (text : string).

Class Host : Type := {
  world : Type;
  (** [time.time() * 1000], in whole milliseconds *)
  time_ms : world -> Z * world;
  (** [requests.get(url, timeout=t)] *)
  http_get : string -> Z -> world -> http_outcome * world;
  (** [datetime.now().strftime("%Y-%m-%d %H:%M:%S")] *)
  now_strftime : world -> string * world;
  (** [datetime.fromtimestamp(ms / 1000).isoformat()]; [None] when the
      timestamp is out of the platform's range and [fromtimestamp] raises *)
  fromtimestamp_isoformat : Z -> option string;
  (** the exception [fromtimestamp] raises then: OverflowError, ValueError
      or OSError *)
  fromtimestamp_error : Z -> exn;
  (** [hashlib.md5(text.encode('utf-8')).hexdigest()] *)
  md5_hexdigest : string -> string;
  (** [json.dumps(v, sort_keys=True)] *)
  json_dumps_sorted : json -> string;
  (** [json.dump(v, f, indent=2)] *)
  json_dump_indent2 : json -> string;
  (** [json.loads] / [json.load] / [response.json()]; [None] when the text
      does not parse *)
  json_loads : string -> option json;
  (** [repr] of a list or dict, as an f-string prints it *)
  py_repr : json -> string
}.

Section Pipeline.

Context {host : Host}.

(** [f"{v}"] *)
Definition py_format (v : json) : string :=
  match v with
  | JNull => "None"
  | JBool true => "True"
  | JBool false => "False"
  | JNum n => str_of_Z n
  | JStr s => s
  | JList _ | JObj _ => py_repr v
  end.

(** ** State: the world, the requests sent so far, and the two files *)

Record state : Type := {
  st_world : world;
  st_requests : list string;       (* URLs requested, oldest first *)
  st_output : option string;       (* matches.json; [None]: does not exist *)
  st_log : list string             (* match_history.log, one entry per append *)
}.

Definition M (A : Type) : Type := state -> result A * state.

Definition ret {A} (a : A) : M A := fun s => (Ok a, s).

Definition bind {A B} (m : M A) (k : A -> M B) : M B :=
  fun s => match m s with
           | (Ok a, s') => k a s'
           | (Raise e, s') => (Raise e, s')
           end.

Definition lift {A} (r : result A) : M A := fun s => (r, s).

(** [try: body  except: handler]; the effects of [body] up to the exception
    stay. *)
Definition try_except {A} (body handler : M A) : M A :=
  fun s => match body s with
           | (Ok a, s') => (Ok a, s')
           | (Raise _, s') => handler s'
           end.

Notation "x <- m ;; k" := (bind m (fun x => k))
  (at level 100, m at next level, right associativity).

Definition with_world (s : state) (w : world) : state :=
  {| st_world := w; st_requests := st_requests s;
     st_output := st_output s; st_log := st_log s |}.

Definition time_time_ms : M Z :=
  fun s => let (t, w) := time_ms (st_world s) in (Ok t, with_world s w).

Definition requests_get (url : string) (timeout : Z) : M (Z * string) :=
  fun s =>
    let (o, w) := http_get url timeout (st_world s) in
    let s' := {| st_world := w; st_requests := (st_requests s ++ [url])%list;
                 st_output := st_output s; st_log := st_log s |} in
    match o with
    | Failed => (Raise RequestException, s')
    | Response code text => (Ok (code, text), s')
    end.

(** [response.raise_for_status()] *)
Definition raise_for_status (response : Z * string) : result unit :=
  if (400 <=? fst response) && (fst response <? 600) then Raise HTTPError
  else Ok tt.

(** [response.json()] *)
Definition response_json (response : Z * string) : result json :=
  match json_loads (snd response) with
  | Some v => Ok v
  | None => Raise JSONDecodeError
  end.

(** ** Configuration *)

Definition API_URL := "https://streamed.pk/api/matches/all-today".
Definition IMG_BASE_URL := "https://streamed.pk/api/images/badge/".
Definition STREAM_BASE_URL := "https://streamed.pk/api/stream/".
Definition TWELVE_HOURS_MS : Z := 12 * 60 * 60 * 1000.

(** ** fetch_matches *)

Definition fetch_matches : M json :=
  try_except
    (response <- requests_get API_URL 15 ;;
     _ <- lift (raise_for_status response) ;;
     lift (response_json response))
    (ret (JList [])).

(** ** resolve_source *)

(** The [for stream in data] loop; [cleaned] is [cleaned_streams]. *)
Fixpoint clean_streams (data : list json) (cleaned : list json)
  : result (list json) :=
  match data with
  | [] => Ok cleaned
  | stream :: rest =>
      let? url := py_get stream "embedUrl" JNull in
      let? language := py_get stream "language" (JStr "Unknown") in
      let? hd := py_get stream "hd" (JBool false) in
      clean_streams rest
        (cleaned ++ [JObj [("url", url); ("language", language); ("hd", hd)]])%list
  end.

(** The body of the [try]: [Some l] when it returns [l], [None] when control
    falls through to the final [return []]. *)
Definition resolve_source_try (source s_id : json) : M (option (list json)) :=
  let url := STREAM_BASE_URL ++ py_format source ++ "/" ++ py_format s_id in
  response <- requests_get url 6 ;;
  if fst response =? 200 then
    data <- lift (response_json response) ;;
    items <- lift (py_iter data) ;;
    cleaned_streams <- lift (clean_streams items []) ;;
    ret (Some cleaned_streams)
  else ret None.

Definition resolve_source (source_info : json) : M (list json) :=
  source <- lift (py_get source_info "source" JNull) ;;
  s_id <- lift (py_get source_info "id" JNull) ;;
  if negb (py_truthy source) || negb (py_truthy s_id) then ret []
  else
    r <- try_except (resolve_source_try source s_id) (ret (Some [])) ;;
    match r with
    | Some streams => ret streams
    | None => ret []
    end.

(** ** process_match *)

(** The [for s in raw_sources] loop; [final_links] is the accumulator. *)
Fixpoint resolve_sources (raw_sources : list json) (final_links : list json)
  : M (list json) :=
  match raw_sources with
  | [] => ret final_links
  | s :: rest =>
      streams <- resolve_source s ;;
      resolve_sources rest (final_links ++ streams)%list
  end.

(** [f"{IMG_BASE_URL}{o.get('badge')}.webp"] if [o.get('badge')] is true,
    else the empty string *)
Definition badge_url (o : json) : result string :=
  let? c := py_get o "badge" JNull in
  if py_truthy c then
    let? b := py_get o "badge" JNull in
    Ok (IMG_BASE_URL ++ py_format b ++ ".webp")
  else Ok EmptyString.

(** [api_match.get('title') or f"{home.get('name', 'Home')} vs {away.get('name', 'Away')}"] *)
Definition match_title (api_match home away : json) : result json :=
  let? t := py_get api_match "title" JNull in
  if py_truthy t then Ok t
  else
    let? h := py_get home "name" (JStr "Home") in
    let? a := py_get away "name" (JStr "Away") in
    Ok (JStr (py_format h ++ " vs " ++ py_format a)).

(** [datetime.fromtimestamp(match_date_ms / 1000).isoformat()] *)
Definition kick_off (match_date_ms : json) : result json :=
  let? ms := py_num match_date_ms in
  match fromtimestamp_isoformat ms with
  | Some iso => Ok (JStr iso)
  | None => Raise (fromtimestamp_error ms)
  end.

Definition process_match (api_match : json) : M json :=
  (* 1. time filter *)
  match_date_ms <- lift (py_get api_match "date" (JNum 0)) ;;
  current_time_ms <- time_time_ms ;;
  date <- lift (py_num match_date_ms) ;;
  if current_time_ms - date >? TWELVE_HOURS_MS then ret JNull
  else
    (* 2. safe extraction *)
    t <- lift (py_get api_match "teams" JNull) ;;
    let teams := py_or t (JObj []) in
    h <- lift (py_get teams "home" JNull) ;;
    let home := py_or h (JObj []) in
    a <- lift (py_get teams "away" JNull) ;;
    let away := py_or a (JObj []) in
    home_badge <- lift (badge_url home) ;;
    away_badge <- lift (badge_url away) ;;
    (* 3. deep link resolution *)
    srcs <- lift (py_get api_match "sources" JNull) ;;
    raw_sources <- lift (py_iter (py_or srcs (JList []))) ;;
    final_links <- resolve_sources raw_sources [] ;;
    id <- lift (py_get api_match "id" JNull) ;;
    title <- lift (match_title api_match home away) ;;
    sport <- lift (py_get api_match "category" JNull) ;;
    kickOff <- lift (kick_off match_date_ms) ;;
    name1 <- lift (py_get home "name" (JStr "Home Team")) ;;
    name2 <- lift (py_get away "name" (JStr "Away Team")) ;;
    ret (JObj [("id", id);
               ("title", title);
               ("sport", sport);
               ("kickOff", kickOff);
               ("isLive", JBool false);
               ("team1", JObj [("name", name1); ("logo", JStr home_badge)]);
               ("team2", JObj [("name", name2); ("logo", JStr away_badge)]);
               ("links", JList final_links)]).

(** ** generate_hash, load_existing_data *)

Definition generate_hash (data : json) : string :=
  md5_hexdigest (json_dumps_sorted data).

Definition load_existing_data : M json :=
  fun s =>
    match st_output s with
    | None => (Ok (JList []), s)
    | Some text =>
        try_except
          (lift (match json_loads text with
                 | Some v => Ok v
                 | None => Raise JSONDecodeError
                 end))
          (ret (JList [])) s
    end.

(** ** main *)

(** [executor.map(process_match, raw_matches)]: every task is submitted and
    runs to its end, whether it returns or raises; the tasks are run here one
    after the other in submission order, which is also the order the results
    come back in.  When a result re-raises, the pool cancels the tasks that
    have not started yet: what the tasks after a raising one do to the world
    is then not what is run here, and of a run in which a task raises the
    properties below state the exception and the files only. *)
Fixpoint executor_map (fn : json -> M json) (args : list json)
  : M (list (result json)) :=
  match args with
  | [] => ret []
  | a :: rest =>
      fun s =>
        let (r, s1) := fn a s in
        let (rs, s2) := executor_map fn rest s1 in
        (match rs with
         | Ok l => Ok (r :: l)
         | Raise e => Raise e
         end, s2)
  end.

(** [for res in results: if res: final_schedule.append(res)]; taking a
    result whose task raised re-raises its exception. *)
Fixpoint collect_results (results : list (result json))
  (final_schedule : list json) : result (list json) :=
  match results with
  | [] => Ok final_schedule
  | Raise e :: _ => Raise e
  | Ok res :: rest =>
      if py_truthy res then collect_results rest (final_schedule ++ [res])%list
      else collect_results rest final_schedule
  end.

(** [lambda x: x['kickOff']]; the keys are the strings [isoformat] made. *)
Definition sort_key (x : json) : result string :=
  let? k := py_getitem x "kickOff" in
  match k with
  | JStr s => Ok s
  | _ => Raise TypeError
  end.

Fixpoint keyed (l : list json) : result (list (string * json)) :=
  match l with
  | [] => Ok []
  | x :: rest =>
      let? k := sort_key x in
      let? r := keyed rest in
      Ok ((k, x) :: r)
  end.

(** Stable insertion: after every entry whose key is not greater. *)
Fixpoint insert_keyed (e : string * json) (sorted : list (string * json))
  : list (string * json) :=
  match sorted with
  | [] => [e]
  | e' :: rest =>
      if String.ltb (fst e) (fst e') then e :: sorted
      else e' :: insert_keyed e rest
  end.

(** [final_schedule.sort(key=lambda x: x['kickOff'])] *)
Definition sort_by_kickOff (l : list json) : result (list json) :=
  let? ks := keyed l in
  Ok (map snd (fold_left (fun acc e => insert_keyed e acc) ks [])).

(** Lines 128-139 of [main]: the pool, the collection of the results that
    are true, the sort. *)
Definition build_schedule (raw_matches : json) : M (list json) :=
  _ <- lift (py_len raw_matches) ;;
  args <- lift (py_iter raw_matches) ;;
  results <- executor_map process_match args ;;
  final_schedule <- lift (collect_results results []) ;;
  lift (sort_by_kickOff final_schedule).

Definition log_entry (timestamp : string) (count : Z) (new_hash : string)
  : string :=
  "[" ++ timestamp ++ "] Updated: " ++ str_of_Z count
      ++ " matches found. Hash: " ++ new_hash ++ newline.

(** Lines 147-158 of [main]: the snapshot is overwritten, then one entry is
    appended to the log. *)
Definition write_schedule (final_schedule : list json) (new_hash : string)
  : M unit :=
  fun s =>
    let (timestamp, w) := now_strftime (st_world s) in
    (Ok tt,
     {| st_world := w;
        st_requests := st_requests s;
        st_output := Some (json_dump_indent2 (JList final_schedule));
        st_log := (st_log s
                   ++ [log_entry timestamp
                         (Z.of_nat (List.length final_schedule)) new_hash])%list |}).

Definition main : M unit :=
  raw_matches <- fetch_matches ;;
  if negb (py_truthy raw_matches) then ret tt
  else
    final_schedule <- build_schedule raw_matches ;;
    current_data <- load_existing_data ;;
    let new_hash := generate_hash (JList final_schedule) in
    let old_hash := generate_hash current_data in
    if negb (String.eqb new_hash old_hash) then
      write_schedule final_schedule new_hash
    else ret tt.

End Pipeline.

(** * generate_m3u.py: the playlist script *)

Section Playlist.

Context {host : Host}.

Notation "x <- m ;; k" := (bind m (fun x => k))
  (at level 100, m at next level, right associativity).

Definition dquote : string := String (ascii_of_nat 34) EmptyString.

(** The items of [sep.join(v)]: every one has to be a string. *)
Fixpoint all_str (items : list json) : result (list string) :=
  match items with
  | [] => Ok []
  | JStr s :: rest => let? r := all_str rest in Ok (s :: r)
  | _ :: _ => Raise TypeError
  end.

(** [sep.join(v)]; like a [for] loop it visits the items of a list, the keys
    of a dict, the characters of a string (taken per byte here). *)
Definition py_join (sep : string) (v : json) : result string :=
  let? items := py_iter v in
  let? strs := all_str items in
  Ok (String.concat sep strs).

(** How the script ends: it returns, or leaves through [exit(code)]. *)
Inductive exit_status : Type :=
| Returned
| Exited (code : Z).

(** [";".join(categories) if categories else "Uncategorized"] *)
Definition group_title_of (categories : json) : result string :=
  if py_truthy categories then py_join ";" categories
  else Ok "Uncategorized".

(** [channel.get("url") or channel.get("stream") or channel.get("source")
     or channel.get("website")] *)
Definition first_url (channel : json) : result json :=
  let? url := py_get channel "url" JNull in
  if py_truthy url then Ok url
  else
    let? stream := py_get channel "stream" JNull in
    if py_truthy stream then Ok stream
    else
      let? source := py_get channel "source" JNull in
      if py_truthy source then Ok source
      else py_get channel "website" JNull.

Definition extinf_line (c_id c_name c_country : json) (group_title : string)
  : string :=
  "#EXTINF:-1 tvg-id=" ++ dquote ++ py_format c_id ++ dquote
    ++ " tvg-name=" ++ dquote ++ py_format c_name ++ dquote
    ++ " tvg-country=" ++ dquote ++ py_format c_country ++ dquote
    ++ " group-title=" ++ dquote ++ group_title ++ dquote
    ++ "," ++ py_format c_name.

(** The body of the loop up to the two writes: the [#EXTINF] line and the
    URL line of a channel, without their newlines. *)
Definition channel_lines (channel : json) : result (string * string) :=
  let? c_id := py_get channel "id" (JStr EmptyString) in
  let? c_name := py_get channel "name" (JStr "Unknown Channel") in
  let? c_country := py_get channel "country" (JStr EmptyString) in
  let? categories := py_get channel "categories" (JList []) in
  let? group_title := group_title_of categories in
  let? found := first_url channel in
  let stream_url :=
    if negb (py_truthy found) then JStr "# No URL found in JSON" else found in
  Ok (extinf_line c_id c_name c_country group_title, py_format stream_url).

(** The [for channel in channels] loop on the open file [f]; what was
    written stays when a channel raises.  The two writes are taken to
    succeed: text that cannot be encoded is not told apart here. *)
Fixpoint write_channels (channels : list json) (f : string)
  : result unit * string :=
  match channels with
  | [] => (Ok tt, f)
  | channel :: rest =>
      match channel_lines channel with
      | Ok (extinf, stream_url) =>
          write_channels rest
            (f ++ (extinf ++ newline) ++ (stream_url ++ newline))
      | Raise e => (Raise e, f)
      end
  end.

Definition m3u_api_url := "https://ntvstream.cx/api/get-iptv".

Definition m3u_header : string := "#EXTM3U" ++ newline.

(** The [try] block up to the [with]: [None] when the API reports failure
    and the function returns, [Some channels] when the file is to be
    written. *)
Definition fetch_channels : M (option json) :=
  response <- requests_get m3u_api_url 30 ;;
  _ <- lift (raise_for_status response) ;;
  data <- lift (response_json response) ;;
  success <- lift (py_get data "success" JNull) ;;
  if negb (py_truthy success) then ret None
  else
    channels <- lift (py_get data "channels" (JList [])) ;;
    _ <- lift (py_len channels) ;;
    ret (Some channels).

(** [generate_m3u()], on the state of the world and the file playlist.m3u
    ([None]: it does not exist).  Opening the file for writing empties it;
    any exception ends in [exit(1)]. *)
Definition generate_m3u (s : state) (playlist : option string)
  : exit_status * state * option string :=
  match fetch_channels s with
  | (Raise _, s') => (Exited 1, s', playlist)
  | (Ok None, s') => (Returned, s', playlist)
  | (Ok (Some channels), s') =>
      match py_iter channels with
      | Raise _ => (Exited 1, s', Some m3u_header)
      | Ok items =>
          match write_channels items m3u_header with
          | (Ok _, f) => (Returned, s', Some f)
          | (Raise _, f) => (Exited 1, s', Some f)
          end
      end
  end.

End Playlist.

(** ** What the specification calls things

    The definitions of this part follow the words of the specification, to be
    compared with the code above. *)

Section Specification.

Context {host : Host}.

Definition is_obj (v : json) : bool :=
  match v with JObj _ => true | _ => false end.

Definition fields_of (v : json) : dict :=
  match v with JObj d => d | _ => [] end.

Definition field (k : string) (d : dict) (default : json) : json :=
  match lookup k d with Some v => v | None => default end.

(** StreamDescriptor of one element of a deep-link response: [url] is the
    element's [embedUrl] as it is, [language] defaults to "Unknown" and [hd]
    to false. *)
Definition stream_descriptor (element : dict) : json :=
  JObj [("url", field "embedUrl" element JNull);
        ("language", field "language" element (JStr "Unknown"));
        ("hd", field "hd" element (JBool false))].

(** The deep-link request failed: no response, a status other than 200, a
    body that does not parse, or one that is not an array of objects. *)
Definition deep_link_failed (o : http_outcome) : bool :=
  match o with
  | Failed => true
  | Response code text =>
      negb (code =? 200) ||
      match json_loads text with
      | Some (JList items) => negb (forallb is_obj items)
      | _ => true
      end
  end.

(** The streams a deep-link response resolves to. *)
Definition resolved_streams (o : http_outcome) : list json :=
  if deep_link_failed o then []
  else
    match o with
    | Response _ text =>
        match json_loads text with
        | Some (JList items) =>
            map (fun e => stream_descriptor (fields_of e)) items
        | _ => []
        end
    | Failed => []
    end.

(** [{base}/{source}/{id}] *)
Definition source_url (ref : dict) : string :=
  STREAM_BASE_URL ++ py_format (field "source" ref JNull) ++ "/"
                  ++ py_format (field "id" ref JNull).

(** A SourceRef is invalid if either field is empty or missing. *)
Definition valid_ref (ref : dict) : bool :=
  py_truthy (field "source" ref JNull) && py_truthy (field "id" ref JNull).

Definition sent (s : state) (url : string) (w : world) : state :=
  {| st_world := w; st_requests := (st_requests s ++ [url])%list;
     st_output := st_output s; st_log := st_log s |}.

(** One lookup: the streams of a source and the state it leaves. *)
Definition lookup_source (ref : dict) (s : state) : list json * state :=
  if valid_ref ref then
    let (o, w) := http_get (source_url ref) 6 (st_world s) in
    (resolved_streams o, sent s (source_url ref) w)
  else ([], s).

(** Links: the streams of every source, in the order of [sources]. *)
Fixpoint links_of (sources : list json) (s : state) : list json * state :=
  match sources with
  | [] => ([], s)
  | ref :: rest =>
      let (streams, s1) := lookup_source (fields_of ref) s in
      let (more, s2) := links_of rest s1 in
      ((streams ++ more)%list, s2)
  end.

(** The [date] of a raw match in epoch milliseconds, 0 when absent. *)
Definition date_of (raw : dict) : result Z := py_num (field "date" raw (JNum 0)).

(** [fingerprint] and the decision of the change gate *)
Definition fingerprint (schedule : json) : string :=
  md5_hexdigest (json_dumps_sorted schedule).

Definition shouldPersist (newSchedule oldSchedule : json) : bool :=
  negb (String.eqb (fingerprint newSchedule) (fingerprint oldSchedule)).

(** The previous schedule: the snapshot, or the empty sequence when the file
    is missing or does not parse. *)
Definition oldSchedule (s : state) : json :=
  match st_output s with
  | None => JList []
  | Some text =>
      match json_loads text with
      | Some v => v
      | None => JList []
      end
  end.

(** Persisting: the snapshot is overwritten and one entry is appended to the
    log. *)
Definition persisted (s : state) (schedule : list json) : state :=
  let (timestamp, w) := now_strftime (st_world s) in
  {| st_world := w;
     st_requests := st_requests s;
     st_output := Some (json_dump_indent2 (JList schedule));
     st_log := (st_log s ++ [log_entry timestamp
                               (Z.of_nat (List.length schedule))
                               (fingerprint (JList schedule))])%list |}.

(** The files a run can touch. *)
Definition files (s : state) : option string * list string :=
  (st_output s, st_log s).

(** The ways a lookup fails. *)
Inductive lookup_fails (ref : dict) (s : state) : Prop :=
| no_source :
    py_truthy (field "source" ref JNull) = false -> lookup_fails ref s
| no_id :
    py_truthy (field "id" ref JNull) = false -> lookup_fails ref s
| request_raises :
    fst (http_get (source_url ref) 6 (st_world s)) = Failed ->
    lookup_fails ref s
| status_not_200 (code : Z) (text : string) :
    fst (http_get (source_url ref) 6 (st_world s)) = Response code text ->
    code <> 200 -> lookup_fails ref s
| body_unparsable (text : string) :
    fst (http_get (source_url ref) 6 (st_world s)) = Response 200 text ->
    json_loads text = None -> lookup_fails ref s
| body_malformed (text : string) (data : json) :
    fst (http_get (source_url ref) 6 (st_world s)) = Response 200 text ->
    json_loads text = Some data ->
    (forall items, data = JList items -> forallb is_obj items = false) ->
    lookup_fails ref s.

(** The ways the fetch of the match list fails in transport. *)
Inductive fetch_fails (s : state) : Prop :=
| fetch_raises :
    fst (http_get API_URL 15 (st_world s)) = Failed -> fetch_fails s
| fetch_error_status (code : Z) (text : string) :
    fst (http_get API_URL 15 (st_world s)) = Response code text ->
    400 <= code < 600 -> fetch_fails s
| fetch_unparsable (code : Z) (text : string) :
    fst (http_get API_URL 15 (st_world s)) = Response code text ->
    json_loads text = None -> fetch_fails s.

(** The containers of a raw match, a missing or null one being empty. *)
Definition teams_of (raw : dict) : json :=
  py_or (field "teams" raw JNull) (JObj []).

Definition side (k : string) (raw : dict) : json :=
  py_or (field k (fields_of (teams_of raw)) JNull) (JObj []).

Definition sources_of (raw : dict) : json :=
  py_or (field "sources" raw JNull) (JList []).

(** A raw match of the expected shape: [teams], [home] and [away] are
    objects when they are there at all, [sources] an array of objects. *)
Definition well_shaped (raw : dict) : bool :=
  is_obj (teams_of raw) && is_obj (side "home" raw) && is_obj (side "away" raw)
  && match sources_of raw with
     | JList refs => forallb is_obj refs
     | _ => false
     end.

Definition refs_of (raw : dict) : list json :=
  match sources_of raw with JList refs => refs | _ => [] end.

Definition logo (team : dict) : string :=
  if py_truthy (field "badge" team JNull)
  then IMG_BASE_URL ++ py_format (field "badge" team JNull) ++ ".webp"
  else EmptyString.

Definition title_of (raw home away : dict) : json :=
  if py_truthy (field "title" raw JNull) then field "title" raw JNull
  else JStr (py_format (field "name" home (JStr "Home")) ++ " vs "
             ++ py_format (field "name" away (JStr "Away"))).

(** The NormalizedMatch of a raw match, given its [kickOff] and [links]. *)
Definition normalized (raw : dict) (kickOff : string) (links : list json)
  : json :=
  let home := fields_of (side "home" raw) in
  let away := fields_of (side "away" raw) in
  JObj [("id", field "id" raw JNull);
        ("title", title_of raw home away);
        ("sport", field "category" raw JNull);
        ("kickOff", JStr kickOff);
        ("isLive", JBool false);
        ("team1", JObj [("name", field "name" home (JStr "Home Team"));
                        ("logo", JStr (logo home))]);
        ("team2", JObj [("name", field "name" away (JStr "Away Team"));
                        ("logo", JStr (logo away))]);
        ("links", JList links)].

(** The state each task of the pool starts in, the tasks taken in order. *)
Fixpoint task_states (raws : list json) (s : state) : list state :=
  match raws with
  | [] => []
  | m :: rest => s :: task_states rest (snd (process_match m s))
  end.

(** Every result of a run is the filter's answer for one and the same
    instant [now_ms]. *)
Definition filtered_against (now_ms : Z) (raws : list json)
  (results : list (result json)) : Prop :=
  Forall2
    (fun m r =>
       forall raw d,
         m = JObj raw -> date_of raw = Ok d ->
         (r = Ok JNull <-> now_ms - d > 43200000))
    raws results.

(** A computation that leaves both files as they are. *)
Definition frames {A : Type} (m : M A) : Prop :=
  forall s, files (snd (m s)) = files s.

(** [o.k] for a nested field of a result. *)
Definition at_key (k : string) (o : json) : json := field k (fields_of o) JNull.

End Specification.

(** ** What the rest of the code is observed by *)

Section Observations.

Context {host : Host}.

(** Two entries of a schedule in the order of the sort: both have a
    [kickOff] string and the first one's is not greater. *)
Definition kickOff_le (a b : json) : Prop :=
  match sort_key a, sort_key b with
  | Ok ka, Ok kb => String.leb ka kb = true
  | _, _ => False
  end.

(** The same order on the entries paired with their keys. *)
Definition key_le (a b : string * json) : Prop :=
  String.leb (fst a) (fst b) = true.

(** The entry has the [kickOff] string [k]. *)
Definition has_kickOff (k : string) (x : json) : bool :=
  match sort_key x with
  | Ok k' => String.eqb k' k
  | Raise _ => false
  end.

(** The results of the tasks that count: returned and true, in the order
    of the tasks. *)
Definition kept (results : list (result json)) : list json :=
  flat_map (fun r => match r with
                     | Ok v => if py_truthy v then [v] else []
                     | Raise _ => []
                     end) results.

(** The exception of the first task that raised, if any did. *)
Fixpoint first_raised (results : list (result json)) : option exn :=
  match results with
  | [] => None
  | Raise e :: _ => Some e
  | Ok _ :: rest => first_raised rest
  end.

(** The URLs the valid refs of a list stand for, in order. *)
Definition urls_of (refs : list json) : list string :=
  map (fun r => source_url (fields_of r))
    (filter (fun r => valid_ref (fields_of r)) refs).

(** The shape of a stream descriptor and of a normalized match. *)
Definition is_link (v : json) : Prop :=
  exists url language hd,
    v = JObj [("url", url); ("language", language); ("hd", hd)].

Definition is_match_record (v : json) : Prop :=
  exists id title sport kickOff name1 logo1 name2 logo2 links,
    v = JObj [("id", id);
              ("title", title);
              ("sport", sport);
              ("kickOff", JStr kickOff);
              ("isLive", JBool false);
              ("team1", JObj [("name", name1); ("logo", JStr logo1)]);
              ("team2", JObj [("name", name2); ("logo", JStr logo2)]);
              ("links", JList links)]
    /\ Forall is_link links.

(** Text of ASCII characters only: what every encoding writes as it is. *)
Fixpoint ascii_only (text : string) : bool :=
  match text with
  | EmptyString => true
  | String c rest => (nat_of_ascii c <? 128)%nat && ascii_only rest
  end.

(** The two lines a channel adds to the playlist, nothing when its
    processing raises. *)
Definition channel_entry (channel : json) : string :=
  match channel_lines channel with
  | Ok (extinf, stream_url) => (extinf ++ newline) ++ (stream_url ++ newline)
  | Raise _ => EmptyString
  end.

(** The channels before the first one whose processing raises. *)
Fixpoint written_channels (channels : list json) : list json :=
  match channels with
  | [] => []
  | channel :: rest =>
      match channel_lines channel with
      | Ok _ => channel :: written_channels rest
      | Raise _ => []
      end
  end.

(** The exception of the first channel whose processing raises. *)
Fixpoint first_channel_error (channels : list json) : option exn :=
  match channels with
  | [] => None
  | channel :: rest =>
      match channel_lines channel with
      | Ok _ => first_channel_error rest
      | Raise e => Some e
      end
  end.

(** The fetch of the channel list fails: the request raises, the status
    is an error status, the body does not parse, or it is not an object. *)
Inductive channels_fetch_fails (s : state) : Prop :=
| channels_request_raises :
    fst (http_get m3u_api_url 30 (st_world s)) = Failed ->
    channels_fetch_fails s
| channels_error_status (code : Z) (text : string) :
    fst (http_get m3u_api_url 30 (st_world s)) = Response code text ->
    400 <= code < 600 -> channels_fetch_fails s
| channels_unparsable (code : Z) (text : string) :
    fst (http_get m3u_api_url 30 (st_world s)) = Response code text ->
    json_loads text = None -> channels_fetch_fails s
| channels_not_object (code : Z) (text : string) (data : json) :
    fst (http_get m3u_api_url 30 (st_world s)) = Response code text ->
    json_loads text = Some data -> is_obj data = false ->
    channels_fetch_fails s.

(** The channel API answers with the object [data]: the request returns,
    the status is not an error status, the body parses to [data]. *)
Definition channels_answer (s : state) (data : dict) : Prop :=
  exists code text,
    fst (http_get m3u_api_url 30 (st_world s)) = Response code text /\
    (code < 400 \/ 600 <= code) /\
    json_loads text = Some (JObj data).

(** The state after the one request of the playlist script. *)
Definition after_channels_request (s : state) : state :=
  sent s m3u_api_url (snd (http_get m3u_api_url 30 (st_world s))).

(** The first of the candidates that is true. *)
Definition stream_url_of (channel : dict) : string :=
  match find py_truthy [field "url" channel JNull;
                        field "stream" channel JNull;
                        field "source" channel JNull;
                        field "website" channel JNull] with
  | Some v => py_format v
  | None => "# No URL found in JSON"
  end.

End Observations.

(** ** A concrete host

    A host to run the pipeline on: a clock that advances by [tick] at every
    reading, a server that answers from a table, UTC, and small versions of
    the library functions. *)

Module Demo.

Record style : Type := {
  quote : string;
  null_word : string;
  true_word : string;
  false_word : string;
  sort_keys : bool;
  indent : option nat
}.

Definition backslash : ascii := ascii_of_nat 92.

Fixpoint escape (q : string) (s : string) : string :=
  match s with
  | EmptyString => EmptyString
  | String c rest =>
      (if Ascii.eqb c backslash || String.eqb (String c EmptyString) q
       then String backslash (String c EmptyString)
       else if Ascii.eqb c (ascii_of_nat 10) then String backslash "n"
       else String c EmptyString) ++ escape q rest
  end.

Definition quoted (st : style) (s : string) : string :=
  quote st ++ escape (quote st) s ++ quote st.

Fixpoint spaces (n : nat) : string :=
  match n with O => EmptyString | S n' => " " ++ spaces n' end.

Definition bracket (st : style) (level : nat) (l r : string)
  (items : list string) : string :=
  match items with
  | [] => l ++ r
  | _ =>
      match indent st with
      | None => l ++ String.concat ", " items ++ r
      | Some n =>
          l ++ newline ++ spaces (n * S level)
            ++ String.concat ("," ++ newline ++ spaces (n * S level)) items
            ++ newline ++ spaces (n * level) ++ r
      end
  end.

Fixpoint insert_entry (e : string * string) (sorted : list (string * string))
  : list (string * string) :=
  match sorted with
  | [] => [e]
  | e' :: rest =>
      if String.ltb (fst e) (fst e') then e :: sorted
      else e' :: insert_entry e rest
  end.

Definition ordered (st : style) (entries : list (string * string))
  : list (string * string) :=
  if sort_keys st then fold_left (fun acc e => insert_entry e acc) entries []
  else entries.

Fixpoint print (st : style) (level : nat) (v : json) {struct v} : string :=
  match v with
  | JNull => null_word st
  | JBool true => true_word st
  | JBool false => false_word st
  | JNum n => str_of_Z n
  | JStr s => quoted st s
  | JList items =>
      bracket st level "[" "]"
        ((fix each (l : list json) : list string :=
            match l with
            | [] => []
            | x :: rest => print st (S level) x :: each rest
            end) items)
  | JObj fields =>
      bracket st level "{" "}"
        (map (fun e => quoted st (fst e) ++ ": " ++ snd e)
           (ordered st
              ((fix each (l : list (string * json)) : list (string * string) :=
                  match l with
                  | [] => []
                  | (k, x) :: rest => (k, print st (S level) x) :: each rest
                  end) fields)))
  end.

Definition dq : string := String (ascii_of_nat 34) EmptyString.

Definition dumps_sorted : json -> string :=
  print {| quote := dq; null_word := "null"; true_word := "true";
           false_word := "false"; sort_keys := true; indent := None |} 0.

Definition dump_indent2 : json -> string :=
  print {| quote := dq; null_word := "null"; true_word := "true";
           false_word := "false"; sort_keys := false; indent := Some 2%nat |} 0.

Definition repr : json -> string :=
  print {| quote := "'"; null_word := "None"; true_word := "True";
           false_word := "False"; sort_keys := false; indent := None |} 0.

(** Parsing, as the inverse of printing on the documents of [corpus]. *)
Definition loads (corpus : list json) (text : string) : option json :=
  find (fun v => String.eqb text (dumps_sorted v)
                 || String.eqb text (dump_indent2 v)) corpus.

(** A digest that tells all texts apart: length and text. *)
Definition digest (text : string) : string :=
  str_of_Z (Z.of_nat (String.length text)) ++ ":" ++ text.

(** Civil date of a day count from 1970-01-01, proleptic Gregorian. *)
Definition civil_of_days (days : Z) : Z * Z * Z :=
  let z := days + 719468 in
  let era := z / 146097 in
  let doe := z - era * 146097 in
  let yoe := (doe - doe / 1460 + doe / 36524 - doe / 146096) / 365 in
  let doy := doe - (365 * yoe + yoe / 4 - yoe / 100) in
  let mp := (5 * doy + 2) / 153 in
  let d := doy - (153 * mp + 2) / 5 + 1 in
  let m := if mp <? 10 then mp + 3 else mp - 9 in
  (if m <=? 2 then yoe + era * 400 + 1 else yoe + era * 400, m, d).

Fixpoint zeros (n : nat) : string :=
  match n with O => EmptyString | S n' => "0" ++ zeros n' end.

Definition padded (width : nat) (n : Z) : string :=
  let s := str_of_Z n in zeros (width - String.length s) ++ s.

(** Date and time of [ms], with [sep] between the two. *)
Definition date_time (sep : string) (ms : Z) : string :=
  let secs := ms / 1000 in
  let '(y, m, d) := civil_of_days (secs / 86400) in
  let sod := secs mod 86400 in
  padded 4 y ++ "-" ++ padded 2 m ++ "-" ++ padded 2 d ++ sep
    ++ padded 2 (sod / 3600) ++ ":" ++ padded 2 (sod mod 3600 / 60)
    ++ ":" ++ padded 2 (sod mod 60).

(** [isoformat] in UTC; the years of [datetime] are 1 to 9999, and
    [fromtimestamp] answers a year outside them with ValueError. *)
Definition isoformat (ms : Z) : option string :=
  if (-62135596800000 <=? ms) && (ms <? 253402300800000) then
    Some (date_time "T" ms
          ++ (if ms mod 1000 =? 0 then EmptyString
              else "." ++ padded 3 (ms mod 1000) ++ "000"))
  else None.

(** The clock counts from [boot], 2023-11-14T22:13:20 UTC. *)
Definition boot : Z := 1700000000000.

Record demo_world : Type := {
  elapsed : N;                             (* ms since [boot] *)
  tick : N;                                (* ms a clock reading takes *)
  latency : N;                             (* ms a request takes *)
  server : list (string * http_outcome)
}.

Definition advance (w : demo_world) (by_ms : N) : demo_world :=
  {| elapsed := elapsed w + by_ms; tick := tick w; latency := latency w;
     server := server w |}.

Definition clock (w : demo_world) : Z := boot + Z.of_N (elapsed w).

Fixpoint answer (table : list (string * http_outcome)) (url : string)
  : http_outcome :=
  match table with
  | [] => Response 404 "Not Found"
  | (u, o) :: rest => if String.eqb url u then o else answer rest url
  end.

Definition demo_host (corpus : list json) : Host := {|
  world := demo_world;
  time_ms := fun w => (clock w, advance w (tick w));
  http_get := fun url _ w => (answer (server w) url, advance w (latency w));
  now_strftime := fun w => (date_time " " (clock w), w);
  fromtimestamp_isoformat := isoformat;
  fromtimestamp_error := fun _ => ValueError;
  md5_hexdigest := digest;
  json_dumps_sorted := dumps_sorted;
  json_dump_indent2 := dump_indent2;
  json_loads := loads corpus;
  py_repr := repr
|}.

(** *** Sample documents *)

Definition ref (source id : string) : json :=
  JObj [("source", JStr source); ("id", JStr id)].

(** The response of the scenario: one stream, in English, in HD. *)
Definition streams_alpha : json :=
  JList [JObj [("embedUrl", JStr "http://x"); ("language", JStr "EN");
               ("hd", JBool true)]].

(** A response with an element that lacks [language] and [hd]. *)
Definition streams_foxtrot : json :=
  JList [JObj [("embedUrl", JStr "http://y")]; JObj [("hd", JBool true)]].

Definition error_document : json := JObj [("error", JStr "no such stream")].

Definition hour : Z := 3600000.

(** A match that started an hour before [boot]. *)
Definition fresh_match : dict :=
  [("id", JStr "m1"); ("title", JStr "Lions vs Tigers");
   ("category", JStr "football"); ("date", JNum (boot - hour));
   ("teams", JObj [("home", JObj [("name", JStr "Lions");
                                  ("badge", JStr "lions-fc")]);
                   ("away", JObj [("name", JStr "Tigers")])]);
   ("sources", JList [ref "alpha" "1"; ref "bravo" "2"; ref "foxtrot" "6"])].

(** A match that started 13 hours before [boot]. *)
Definition stale_match : dict :=
  [("id", JStr "m0"); ("date", JNum (boot - 13 * hour));
   ("sources", JList [ref "alpha" "1"])].

(** A match with a date and one source, nothing else. *)
Definition bare_match : dict :=
  [("date", JNum boot); ("sources", JList [ref "alpha" "1"])].

Definition dateless_match : dict :=
  [("id", JStr "m9"); ("title", JStr "No date");
   ("sources", JList [ref "alpha" "1"])].

(** [teams] is a string. *)
Definition odd_match : dict :=
  [("id", JStr "m7"); ("date", JNum boot); ("teams", JStr "Lions-Tigers")].

(** A match that started exactly 12 hours before [boot]. *)
Definition edge_match : dict :=
  [("id", JStr "m5"); ("date", JNum (boot - 12 * hour))].

(** What [fresh_match] is normalized to on this host. *)
Definition fresh_normalized : json :=
  JObj [("id", JStr "m1"); ("title", JStr "Lions vs Tigers");
        ("sport", JStr "football"); ("kickOff", JStr "2023-11-14T21:13:20");
        ("isLive", JBool false);
        ("team1", JObj [("name", JStr "Lions");
                        ("logo", JStr "https://streamed.pk/api/images/badge/lions-fc.webp")]);
        ("team2", JObj [("name", JStr "Tigers"); ("logo", JStr EmptyString)]);
        ("links", JList [JObj [("url", JStr "http://x");
                               ("language", JStr "EN"); ("hd", JBool true)];
                         JObj [("url", JStr "http://y");
                               ("language", JStr "Unknown");
                               ("hd", JBool false)];
                         JObj [("url", JNull); ("language", JStr "Unknown");
                               ("hd", JBool true)]])].

Definition corpus : list json :=
  [JList []; streams_alpha; streams_foxtrot; error_document;
   JList [fresh_normalized];
   JList [JObj fresh_match; JObj stale_match];
   JList [JObj stale_match];
   JList [JObj edge_match; JObj edge_match];
   JList [JObj dateless_match; JObj bare_match]].

Definition sample_host : Host := demo_host corpus.

Definition stream_url (source id : string) : string :=
  "https://streamed.pk/api/stream/" ++ source ++ "/" ++ id.

(** The deep-link server: [alpha] and [foxtrot] answer, [bravo] has an
    error status, [charlie] times out, [delta] answers with a page that is
    not JSON, [echo] with an object. *)
Definition deep_links : list (string * http_outcome) :=
  [(stream_url "alpha" "1", Response 200 (dumps_sorted streams_alpha));
   (stream_url "bravo" "2", Response 500 "Internal Server Error");
   (stream_url "charlie" "3", Failed);
   (stream_url "delta" "4", Response 200 "<html>busy</html>");
   (stream_url "echo" "5", Response 200 (dumps_sorted error_document));
   (stream_url "foxtrot" "6", Response 200 (dumps_sorted streams_foxtrot))].

(** A world whose match-list API answers [api]. *)
Definition world_with (api : http_outcome) : demo_world :=
  {| elapsed := 0; tick := 1; latency := 40;
     server := ("https://streamed.pk/api/matches/all-today", api)
               :: deep_links |}.

Definition serving (matches : json) : demo_world :=
  world_with (Response 200 (dumps_sorted matches)).

(** A state before a run: nothing requested yet, the files as given. *)
Definition before (w : demo_world) (output : option string)
  (log : list string) : @state sample_host :=
  {| st_world := w : @world sample_host; st_requests := [];
     st_output := output; st_log := log |}.

(** No snapshot yet, the API has nothing. *)
Definition idle : @state sample_host := before (serving (JList [])) None [].

(** The first run over a fresh and a stale match. *)
Definition first_run : @state sample_host :=
  before (serving (JList [JObj fresh_match; JObj stale_match])) None [].

(** The same data again, with the files the first run left. *)
Definition second_run : @state sample_host :=
  before (serving (JList [JObj fresh_match; JObj stale_match]))
    (st_output (snd (@main sample_host first_run)))
    (st_log (snd (@main sample_host first_run))).

(** A run over the stale match alone, with the files the first run left. *)
Definition emptying_run : @state sample_host :=
  before (serving (JList [JObj stale_match]))
    (st_output (snd (@main sample_host first_run)))
    (st_log (snd (@main sample_host first_run))).

(** The first run again, the API answering with status 300 this time. *)
Definition redirected_run : @state sample_host :=
  before (world_with
            (Response 300
               (dumps_sorted (JList [JObj fresh_match; JObj stale_match]))))
    None [].

(** A match dated further back than a float can hold. *)
Definition ancient_match : dict :=
  [("id", JStr "m0"); ("date", JNum (- (10 ^ 400)))].

(** *** More sample data *)

(** A match that started two hours before [boot]. *)
Definition early_match : dict :=
  [("id", JStr "m2"); ("title", JStr "Bears vs Wolves");
   ("date", JNum (boot - 2 * hour))].

(** Two matches that started at the same time as [fresh_match]. *)
Definition twin_a : dict :=
  [("id", JStr "a"); ("date", JNum (boot - hour))].

Definition twin_b : dict :=
  [("id", JStr "b"); ("date", JNum (boot - hour));
   ("teams", JObj [("home", JObj [("name", JNull)])])].

(** [date] is null. *)
Definition null_date_match : dict :=
  [("id", JStr "m8"); ("date", JNull); ("sources", JList [ref "alpha" "1"])].

(** A date past the year 9999. *)
Definition far_match : dict :=
  [("id", JStr "m6"); ("date", JNum 300000000000000);
   ("sources", JList [ref "alpha" "1"; JObj [("source", JStr "alpha")];
                      ref "bravo" "2"])].

(** The state the first run leaves. *)
Definition after_first : @state sample_host :=
  snd (@main sample_host first_run).

(** Five raw matches, three of them with the same start. *)
Definition mixed : list json :=
  [JObj fresh_match; JObj twin_b; JObj early_match; JObj twin_a;
   JObj stale_match].

Definition more_corpus : list json :=
  (corpus ++ [JList [JObj fresh_match; JObj odd_match; JObj bare_match]])%list.

Definition more_host : Host := demo_host more_corpus.

Definition more_before (w : demo_world) (output : option string)
  (log : list string) : @state more_host :=
  {| st_world := w : @world more_host; st_requests := [];
     st_output := output; st_log := log |}.

(** A run over a fresh match, an odd one and a bare one. *)
Definition odd_run : @state more_host :=
  more_before
    (serving (JList [JObj fresh_match; JObj odd_match; JObj bare_match]))
    (Some "[]") ["earlier entry"].

(** *** The channel API *)

Definition channel_news : dict :=
  [("id", JStr "bbc"); ("name", JStr "BBC News"); ("country", JStr "GB");
   ("categories", JList [JStr "news"; JStr "world"]);
   ("stream", JStr "http://bbc/stream"); ("website", JStr "http://bbc")].

Definition channel_bare : dict := [("website", JStr "http://site")].

Definition channel_nowhere : dict :=
  [("id", JStr "x1"); ("url", JStr EmptyString)].

(** [categories] has a number in it. *)
Definition channel_odd : dict :=
  [("id", JStr "x2"); ("categories", JList [JStr "news"; JNum 7])].

Definition iptv_ok : dict :=
  [("success", JBool true);
   ("channels", JList [JObj channel_news; JObj channel_bare;
                       JObj channel_nowhere])].

Definition iptv_cut : dict :=
  [("success", JBool true);
   ("channels", JList [JObj channel_news; JObj channel_odd;
                       JObj channel_bare])].

Definition iptv_failed : dict := [("success", JBool false)].

Definition iptv_null_channels : dict :=
  [("success", JBool true); ("channels", JNull)].

Definition playlist_corpus : list json :=
  [JObj iptv_ok; JObj iptv_cut; JObj iptv_failed; JObj iptv_null_channels;
   JList []].

Definition playlist_host : Host := demo_host playlist_corpus.

Definition iptv_state (api : http_outcome) : @state playlist_host :=
  {| st_world := {| elapsed := 0; tick := 1; latency := 40;
                    server := [("https://ntvstream.cx/api/get-iptv", api)] |}
                 : @world playlist_host;
     st_requests := []; st_output := Some "[]"; st_log := [] |}.

Definition iptv_answers (data : dict) : @state playlist_host :=
  iptv_state (Response 200 (dumps_sorted (JObj data))).

End Demo.

(** * Properties *)

Section Properties.

Context {host : Host}.

(** ** resolve_source *)

Lemma clean_streams_objects (items cleaned : list json) :
  forallb is_obj items = true ->
  clean_streams items cleaned
  = Ok (cleaned ++ map (fun e => stream_descriptor (fields_of e)) items)%list.
Proof.
  revert cleaned.
  induction items as [|e items IH]; intros cleaned Hall; simpl.
  - now rewrite app_nil_r.
  - simpl in Hall. apply andb_prop in Hall as [He Hrest].
    destruct e; try discriminate He. simpl.
    rewrite (IH _ Hrest), <- app_assoc. reflexivity.
Qed.

Lemma clean_streams_other (items cleaned : list json) :
  forallb is_obj items = false ->
  exists e, clean_streams items cleaned = Raise e.
Proof.
  revert cleaned.
  induction items as [|x items IH]; intros cleaned Hbad; simpl in *.
  - discriminate.
  - destruct x; simpl in *; eauto.
Qed.

(** The streams of a parsed body: those of an array of objects, nothing for
    anything else (iterating it raises, or visits nothing). *)
Lemma streams_of_body (data : json) :
  match (let? items := py_iter data in clean_streams items []) with
  | Ok streams =>
      streams = match data with
                | JList items =>
                    if forallb is_obj items
                    then map (fun e => stream_descriptor (fields_of e)) items
                    else []
                | _ => []
                end
  | Raise _ =>
      match data with
      | JList items => forallb is_obj items = false
      | _ => True
      end
  end.
Proof.
  destruct data as [| b | n | s | items | fields]; simpl; auto.
  - destruct s as [|c s]; simpl; reflexivity.
  - destruct (forallb is_obj items) eqn:Hall.
    + now rewrite clean_streams_objects.
    + destruct (clean_streams_other items [] Hall) as [e ->]. reflexivity.
  - destruct fields as [|[k v] fields]; simpl; reflexivity.
Qed.

Lemma resolve_source_try_lookup (ref : dict) (s : state) :
  valid_ref ref = true ->
  try_except
    (resolve_source_try (field "source" ref JNull) (field "id" ref JNull))
    (ret (Some [])) s
  = let (o, w) := http_get (source_url ref) 6 (st_world s) in
    (Ok (match o with
         | Failed => Some []
         | Response code _ =>
             if code =? 200 then Some (resolved_streams o) else None
         end),
     sent s (source_url ref) w).
Proof.
  intros _.
  unfold try_except, resolve_source_try, bind, requests_get, lift, ret, sent.
  fold (source_url ref).
  destruct (http_get (source_url ref) 6 (st_world s)) as [o w].
  destruct o as [|code text]; simpl; [reflexivity|].
  unfold resolved_streams, deep_link_failed, response_json. simpl.
  destruct (code =? 200); simpl; [|reflexivity].
  destruct (json_loads text) as [data|]; simpl; [|reflexivity].
  pose proof (streams_of_body data) as Hb. unfold rbind in Hb.
  destruct (py_iter data) as [items|e]; simpl.
  - destruct (clean_streams items []) as [streams|e]; simpl.
    + subst streams.
      destruct data; try reflexivity.
      destruct (forallb is_obj items0); reflexivity.
    + destruct data; try reflexivity. now rewrite Hb.
  - destruct data; try reflexivity. now rewrite Hb.
Qed.

(** What the code does on a dict is one lookup of the specification. *)
Lemma resolve_source_lookup (ref : dict) (s : state) :
  resolve_source (JObj ref) s
  = (Ok (fst (lookup_source ref s)), snd (lookup_source ref s)).
Proof.
  unfold resolve_source, lookup_source, bind, lift. simpl.
  fold (field "source" ref JNull). fold (field "id" ref JNull).
  replace (negb (py_truthy (field "source" ref JNull))
           || negb (py_truthy (field "id" ref JNull)))
    with (negb (valid_ref ref))
    by (unfold valid_ref; apply negb_andb).
  destruct (valid_ref ref) eqn:Hv; simpl; [|reflexivity].
  rewrite (resolve_source_try_lookup ref s Hv). unfold ret.
  destruct (http_get (source_url ref) 6 (st_world s)) as [o w]. simpl.
  destruct o as [|code text]; simpl; [reflexivity|].
  destruct (code =? 200) eqn:Hc; simpl; [reflexivity|].
  unfold resolved_streams, deep_link_failed. now rewrite Hc.
Qed.

(** A lookup that fails contributes no stream. *)
Lemma lookup_fails_nothing (ref : dict) (s : state) :
  lookup_fails ref s -> fst (lookup_source ref s) = [].
Proof.
  unfold lookup_source, valid_ref.
  intros [Hs | Hi | Hf | code text Hr Hc | text Hr Hp | text data Hr Hp Hd].
  - now rewrite Hs.
  - rewrite Hi, andb_false_r. reflexivity.
  - destruct (_ && _); [|reflexivity].
    destruct (http_get _ _ _) as [o w]. simpl in *. now subst o.
  - destruct (_ && _); [|reflexivity].
    destruct (http_get _ _ _) as [o w]. simpl in *. subst o.
    unfold resolved_streams, deep_link_failed.
    apply Z.eqb_neq in Hc. now rewrite Hc.
  - destruct (_ && _); [|reflexivity].
    destruct (http_get _ _ _) as [o w]. simpl in *. subst o.
    unfold resolved_streams, deep_link_failed. now rewrite Hp.
  - destruct (_ && _); [|reflexivity].
    destruct (http_get _ _ _) as [o w]. simpl in *. subst o.
    unfold resolved_streams, deep_link_failed. rewrite Hp. simpl.
    destruct data; try reflexivity.
    now rewrite (Hd items eq_refl).
Qed.

(** C1: on a SourceRef (a dict), [resolve_source] never raises; and it
    returns the empty list whenever the ref lacks a [source] or an [id]
    (missing or empty) or the deep-link request fails: the request raises
    (timeout, connection failure), the status is not 200, the body does not
    parse, or the body is not an array of objects. *)
Theorem resolve_source_fail_open (ref : dict) (s : state) :
  (exists streams, fst (resolve_source (JObj ref) s) = Ok streams) /\
  (lookup_fails ref s -> fst (resolve_source (JObj ref) s) = Ok []).
Proof.
  rewrite resolve_source_lookup. simpl. split; [eauto|].
  intros Hf. now rewrite (lookup_fails_nothing ref s Hf).
Qed.

(** ** process_match *)

Lemma resolve_sources_links (refs final_links : list json) (s : state) :
  forallb is_obj refs = true ->
  resolve_sources refs final_links s
  = (Ok (final_links ++ fst (links_of refs s))%list, snd (links_of refs s)).
Proof.
  revert final_links s.
  induction refs as [|ref refs IH]; intros final_links s Hall; simpl.
  - now rewrite app_nil_r.
  - simpl in Hall. apply andb_prop in Hall as [Href Hrest].
    destruct ref as [| | | | |ref]; try discriminate Href.
    unfold bind. rewrite resolve_source_lookup. simpl.
    destruct (lookup_source ref s) as [streams s1]. simpl.
    rewrite (IH _ _ Hrest).
    destruct (links_of refs s1) as [more s2]. simpl.
    now rewrite app_assoc.
Qed.

Lemma badge_url_logo (team : dict) : badge_url (JObj team) = Ok (logo team).
Proof.
  unfold badge_url, logo, field. simpl.
  destruct (py_truthy _); reflexivity.
Qed.

Lemma match_title_of (raw home away : dict) :
  match_title (JObj raw) (JObj home) (JObj away) = Ok (title_of raw home away).
Proof.
  unfold match_title, title_of, field. simpl.
  destruct (py_truthy _); reflexivity.
Qed.

Lemma is_obj_fields (v : json) : is_obj v = true -> v = JObj (fields_of v).
Proof. destruct v; simpl; congruence. Qed.

(** The start of [process_match]: the date is read, then the clock. *)
Lemma process_match_filter (raw : dict) (d : Z) (s : state) :
  date_of raw = Ok d ->
  fst (time_ms (st_world s)) - d > TWELVE_HOURS_MS ->
  process_match (JObj raw) s
  = (Ok JNull, with_world s (snd (time_ms (st_world s)))).
Proof.
  unfold date_of, field. intros Hd Hlate.
  unfold process_match, bind, lift, time_time_ms. simpl.
  destruct (time_ms (st_world s)) as [now w]. simpl in *.
  rewrite Hd.
  destruct (now - d >? TWELVE_HOURS_MS) eqn:Hc; [reflexivity|].
  rewrite Z.gtb_ltb in Hc. apply Z.ltb_ge in Hc. lia.
Qed.

Ltac step_binds :=
  repeat (match goal with
          | |- context [match ?x with (_, _) => _ end] => destruct x
          | |- context [match ?x with Ok _ => _ | Raise _ => _ end] =>
              destruct x
          end; simpl).

(** A match that passes the filter is never answered with [None]: the
    function returns the dict it assembles, or raises. *)
Lemma process_match_kept_not_none (raw : dict) (d : Z) (s : state) :
  date_of raw = Ok d ->
  fst (time_ms (st_world s)) - d <= TWELVE_HOURS_MS ->
  fst (process_match (JObj raw) s) <> Ok JNull.
Proof.
  unfold date_of, field. intros Hd Hin.
  unfold process_match, bind, lift, time_time_ms, ret. simpl.
  destruct (time_ms (st_world s)) as [now w]. simpl in *.
  rewrite Hd.
  replace (now - d >? TWELVE_HOURS_MS) with false
    by (symmetry; rewrite Z.gtb_ltb; apply Z.ltb_ge; lia).
  step_binds; discriminate.
Qed.

(** A well-shaped match that passes the filter is normalized; its links are
    the streams of its sources. *)
Lemma process_match_kept (raw : dict) (d : Z) (iso : string) (s : state) :
  well_shaped raw = true ->
  date_of raw = Ok d ->
  fromtimestamp_isoformat d = Some iso ->
  fst (time_ms (st_world s)) - d <= TWELVE_HOURS_MS ->
  let s0 := with_world s (snd (time_ms (st_world s))) in
  process_match (JObj raw) s
  = (Ok (normalized raw iso (fst (links_of (refs_of raw) s0))),
     snd (links_of (refs_of raw) s0)).
Proof.
  unfold well_shaped, date_of. intros Hw Hd Hiso Hin.
  apply andb_prop in Hw as [Hw Hrefs].
  apply andb_prop in Hw as [Hw Haway].
  apply andb_prop in Hw as [Hteams Hhome].
  unfold process_match, bind, lift, time_time_ms, ret. simpl.
  destruct (time_ms (st_world s)) as [now w]. simpl in *.
  fold (field "date" raw (JNum 0)). rewrite Hd.
  replace (now - d >? TWELVE_HOURS_MS) with false
    by (symmetry; rewrite Z.gtb_ltb; apply Z.ltb_ge; lia).
  fold (field "teams" raw JNull). fold (teams_of raw).
  pose proof (is_obj_fields _ Hteams) as Et.
  pose proof (is_obj_fields _ Hhome) as Eh.
  pose proof (is_obj_fields _ Haway) as Ea.
  rewrite Et. simpl.
  fold (field "home" (fields_of (teams_of raw)) JNull).
  fold (field "away" (fields_of (teams_of raw)) JNull).
  fold (side "home" raw). fold (side "away" raw).
  rewrite Eh, Ea, !badge_url_logo.
  fold (field "sources" raw JNull). fold (sources_of raw).
  unfold refs_of.
  destruct (sources_of raw) as [| | | | refs |]; try discriminate Hrefs.
  simpl py_iter. cbv iota beta.
  rewrite (resolve_sources_links refs [] _ Hrefs). simpl.
  rewrite match_title_of. unfold kick_off. rewrite Hd. simpl. rewrite Hiso.
  simpl. reflexivity.
Qed.

Lemma twelve_hours : TWELVE_HOURS_MS = 43200000.
Proof. reflexivity. Qed.

(** C3 as the code has it: for a raw match whose [date] is a number [d]
    that a float holds (0 when the field is absent) and the clock reading
    [now_ms] its task takes, [process_match] answers [None] exactly when
    [now_ms - d > 43,200,000]; and it then returns at once: the clock
    reading is its only effect, no request is sent. *)
Theorem process_match_absent_iff (raw : dict) (d : Z) (s : state) :
  date_of raw = Ok d ->
  let now_ms := fst (time_ms (st_world s)) in
  (fst (process_match (JObj raw) s) = Ok JNull <-> now_ms - d > 43200000) /\
  (now_ms - d > 43200000 ->
   process_match (JObj raw) s
   = (Ok JNull, with_world s (snd (time_ms (st_world s)))) /\
   st_requests (snd (process_match (JObj raw) s)) = st_requests s).
Proof.
  intros Hd now_ms.
  assert (Hlate : now_ms - d > 43200000 ->
                  process_match (JObj raw) s
                  = (Ok JNull, with_world s (snd (time_ms (st_world s))))).
  { intros H. apply process_match_filter with (d := d); [exact Hd|].
    rewrite twelve_hours. exact H. }
  split; [split|].
  - intros Hnone.
    destruct (Z_gt_le_dec (now_ms - d) 43200000) as [H|H]; [exact H|].
    exfalso. apply (process_match_kept_not_none raw d s Hd); [|exact Hnone].
    rewrite twelve_hours. exact H.
  - intros H. now rewrite (Hlate H).
  - intros H. split; [exact (Hlate H)|]. now rewrite (Hlate H).
Qed.

(** ** The pool *)

Lemma executor_map_results (raws : list json) :
  forall (s : state) (results : list (result json)) (s' : state),
  executor_map process_match raws s = (Ok results, s') ->
  Forall2 (fun task r => r = fst (process_match (fst task) (snd task)))
    (combine raws (task_states raws s)) results.
Proof.
  induction raws as [|m raws IH]; intros s results s' Hrun; simpl in *.
  - injection Hrun as <- _. constructor.
  - destruct (process_match m s) as [r s1] eqn:Hm.
    destruct (executor_map process_match raws s1) as [[l|e] s2] eqn:Hrest;
      [|discriminate].
    injection Hrun as <- _. simpl.
    constructor; [simpl; now rewrite Hm | now apply IH with (s' := s2)].
Qed.

Lemma executor_map_returns (fn : json -> M json) (args : list json) :
  forall s, exists results, fst (executor_map fn args s) = Ok results.
Proof.
  induction args as [|a args IH]; intros s; simpl.
  - eexists. reflexivity.
  - destruct (fn a s) as [r s1].
    destruct (IH s1) as [l Hl].
    destruct (executor_map fn args s1) as [[l'|e] s2]; simpl in *;
      [eauto | discriminate].
Qed.

Lemma executor_map_from (raws : list json) :
  forall (s : state) (results : list (result json)) (s' : state),
  executor_map process_match raws s = (Ok results, s') ->
  forall r, In r results ->
  exists m s1, In m raws /\ r = fst (process_match m s1).
Proof.
  induction raws as [|m raws IH]; intros s results s' Hrun r Hin;
    simpl in *.
  - injection Hrun as <- _. destruct Hin.
  - destruct (process_match m s) as [r0 s1] eqn:Hm.
    destruct (executor_map process_match raws s1) as [[l|e] s2] eqn:Hrest;
      [|discriminate].
    injection Hrun as <- _. destruct Hin as [<- | Hin].
    + exists m, s. rewrite Hm. auto.
    + destruct (IH _ _ _ Hrest r Hin) as (m' & s1' & Hin' & Hr). eauto.
Qed.

Lemma collect_results_from (results : list (result json)) :
  forall (acc l : list json),
  collect_results results acc = Ok l ->
  forall e, In e l -> In e acc \/ (In (Ok e) results /\ py_truthy e = true).
Proof.
  induction results as [|[res|ex] results IH]; intros acc l Hc e Hin;
    simpl in *.
  - injection Hc as <-. auto.
  - destruct (py_truthy res) eqn:Ht.
    + destruct (IH _ _ Hc e Hin) as [Hacc | [Hr Hte]].
      * apply in_app_or in Hacc as [Hacc | [<- | []]]; auto.
      * auto.
    + destruct (IH _ _ Hc e Hin) as [Hacc | [Hr Hte]]; auto.
  - discriminate.
Qed.

(** ** The sort *)

Lemma keyed_values (l : list json) :
  forall ks, keyed l = Ok ks -> map snd ks = l.
Proof.
  induction l as [|x l IH]; intros ks Hk; simpl in *.
  - now injection Hk as <-.
  - destruct (sort_key x) as [k|e]; [|discriminate]. simpl in Hk.
    destruct (keyed l) as [r|e]; [|discriminate]. simpl in Hk.
    injection Hk as <-. simpl. now rewrite (IH r eq_refl).
Qed.

Lemma insert_keyed_perm (e : string * json) (l : list (string * json)) :
  Permutation (insert_keyed e l) (e :: l).
Proof.
  induction l as [|e' l IH]; simpl.
  - reflexivity.
  - destruct (String.ltb (fst e) (fst e')); [reflexivity|].
    rewrite IH. apply perm_swap.
Qed.

Lemma fold_insert_perm (ks : list (string * json)) :
  forall acc,
  Permutation (fold_left (fun acc e => insert_keyed e acc) ks acc)
    (ks ++ acc)%list.
Proof.
  induction ks as [|e ks IH]; intros acc; simpl.
  - reflexivity.
  - rewrite IH, insert_keyed_perm. symmetry. apply Permutation_middle.
Qed.

(** The sort rearranges the schedule and nothing else. *)
Lemma sort_by_kickOff_perm (l sorted : list json) :
  sort_by_kickOff l = Ok sorted -> Permutation sorted l.
Proof.
  unfold sort_by_kickOff. intros Hs.
  destruct (keyed l) as [ks|e] eqn:Hk; [|discriminate]. simpl in Hs.
  injection Hs as <-.
  rewrite <- (keyed_values l ks Hk).
  apply Permutation_map.
  rewrite fold_insert_perm, app_nil_r. reflexivity.
Qed.

(** ** What leaves the files alone *)

Lemma frames_ret {A} (a : A) : frames (ret a).
Proof. intros s. reflexivity. Qed.

Lemma frames_lift {A} (r : result A) : frames (lift r).
Proof. intros s. reflexivity. Qed.

Lemma frames_bind {A B} (m : M A) (k : A -> M B) :
  frames m -> (forall a, frames (k a)) -> frames (bind m k).
Proof.
  intros Hm Hk s. unfold bind. specialize (Hm s).
  destruct (m s) as [[a|e] s1]; simpl in *; [|exact Hm].
  now rewrite Hk.
Qed.

Lemma frames_try {A} (body handler : M A) :
  frames body -> frames handler -> frames (try_except body handler).
Proof.
  intros Hb Hh s. unfold try_except. specialize (Hb s).
  destruct (body s) as [[a|e] s1]; simpl in *; [exact Hb|].
  now rewrite Hh.
Qed.

Lemma frames_time : frames time_time_ms.
Proof.
  intros s. unfold time_time_ms. now destruct (time_ms (st_world s)).
Qed.

Lemma frames_get (url : string) (timeout : Z) :
  frames (requests_get url timeout).
Proof.
  intros s. unfold requests_get.
  destruct (http_get url timeout (st_world s)) as [[|code text] w];
    reflexivity.
Qed.

Ltac frame :=
  repeat first
    [ apply frames_ret | apply frames_lift | apply frames_time
    | apply frames_get
    | apply frames_bind; [|intros]
    | apply frames_try
    | match goal with
      | |- frames (if ?b then _ else _) => destruct b
      | |- frames (match ?x with _ => _ end) => destruct x
      end ].

Lemma frames_fetch_matches : frames fetch_matches.
Proof. unfold fetch_matches. frame. Qed.

Lemma frames_resolve_source (source_info : json) :
  frames (resolve_source source_info).
Proof. unfold resolve_source, resolve_source_try. frame. Qed.

Lemma frames_resolve_sources (raw_sources : list json) :
  forall final_links, frames (resolve_sources raw_sources final_links).
Proof.
  induction raw_sources as [|x raw_sources IH]; intros final_links; simpl.
  - apply frames_ret.
  - apply frames_bind; [apply frames_resolve_source | intros; apply IH].
Qed.

Lemma frames_process_match (api_match : json) :
  frames (process_match api_match).
Proof.
  unfold process_match.
  repeat first
    [ apply frames_resolve_sources
    | apply frames_ret | apply frames_lift | apply frames_time
    | apply frames_bind; [|intros]
    | match goal with
      | |- frames (if ?b then _ else _) => destruct b
      end ].
Qed.

Lemma frames_executor_map (args : list json) :
  frames (executor_map process_match args).
Proof.
  induction args as [|a args IH]; intros s; simpl.
  - reflexivity.
  - pose proof (frames_process_match a s) as Ha.
    destruct (process_match a s) as [r s1]. simpl in Ha.
    specialize (IH s1).
    destruct (executor_map process_match args s1) as [rs s2]. simpl in *.
    congruence.
Qed.

Lemma frames_build_schedule (raw_matches : json) :
  frames (build_schedule raw_matches).
Proof.
  unfold build_schedule.
  repeat first
    [ apply frames_executor_map | apply frames_lift
    | apply frames_bind; [|intros] ].
Qed.

(** ** main *)

Lemma load_existing_data_old (s : state) :
  load_existing_data s = (Ok (oldSchedule s), s).
Proof.
  unfold load_existing_data, oldSchedule.
  destruct (st_output s) as [text|]; [|reflexivity].
  unfold try_except, lift, ret.
  destruct (json_loads text); reflexivity.
Qed.

Lemma oldSchedule_files (s s' : state) :
  files s' = files s -> oldSchedule s' = oldSchedule s.
Proof.
  unfold files, oldSchedule. intros H. injection H as -> _. reflexivity.
Qed.

Lemma shouldPersist_same (S : json) : shouldPersist S S = false.
Proof. unfold shouldPersist. now rewrite String.eqb_refl. Qed.

Lemma shouldPersist_iff (new old : json) :
  shouldPersist new old = true <-> fingerprint new <> fingerprint old.
Proof.
  unfold shouldPersist. rewrite negb_true_iff. apply String.eqb_neq.
Qed.

(** A run that has data and a schedule ends at the gate. *)
Lemma main_gate (s s0 s1 : state) (raw : json) (sched : list json) :
  fetch_matches s = (Ok raw, s0) ->
  py_truthy raw = true ->
  build_schedule raw s0 = (Ok sched, s1) ->
  main s = (Ok tt,
            if shouldPersist (JList sched) (oldSchedule s)
            then persisted s1 sched else s1)
  /\ files s1 = files s.
Proof.
  intros Hf Ht Hb.
  assert (Hfiles : files s1 = files s).
  { pose proof (frames_fetch_matches s) as H0. rewrite Hf in H0.
    pose proof (frames_build_schedule raw s0) as H1. rewrite Hb in H1.
    simpl in *. congruence. }
  split; [|exact Hfiles].
  unfold main, bind. rewrite Hf, Ht. simpl. rewrite Hb.
  rewrite load_existing_data_old, (oldSchedule_files s s1 Hfiles).
  unfold generate_hash, shouldPersist, fingerprint.
  destruct (negb _); [|reflexivity].
  unfold write_schedule, persisted, fingerprint.
  destruct (now_strftime (st_world s1)); reflexivity.
Qed.

(** C2: a run that has data and a schedule persists exactly when the
    fingerprint of the new schedule differs from that of the old one: it
    then overwrites the snapshot and appends one log entry, the line
    "[<timestamp>] Updated: <count> matches found. Hash: <fingerprint>",
    and otherwise leaves both files as they were.  The old schedule is the
    snapshot, or the empty sequence when the file is missing or does not
    parse.  In particular [shouldPersist S S] is false, and a schedule identical to
    the previous one causes no write. *)
Theorem change_gate (s s0 s1 : state) (raw : json) (sched : list json) :
  fetch_matches s = (Ok raw, s0) ->
  py_truthy raw = true ->
  build_schedule raw s0 = (Ok sched, s1) ->
  let new := JList sched in
  let old := oldSchedule s in
  (fingerprint new <> fingerprint old ->
   fst (main s) = Ok tt /\
   st_output (snd (main s)) = Some (json_dump_indent2 new) /\
   st_log (snd (main s))
   = (st_log s
      ++ [("[" ++ fst (now_strftime (st_world s1)) ++ "] Updated: "
           ++ str_of_Z (Z.of_nat (List.length sched))
           ++ " matches found. Hash: " ++ fingerprint new ++ newline)%string])%list) /\
  (fingerprint new = fingerprint old ->
   fst (main s) = Ok tt /\ files (snd (main s)) = files s) /\
  (files (snd (main s)) <> files s <-> shouldPersist new old = true) /\
  (st_output s = None -> old = JList []) /\
  (forall text, st_output s = Some text -> json_loads text = None ->
                old = JList []) /\
  (forall text v, st_output s = Some text -> json_loads text = Some v ->
                  old = v) /\
  (forall S, shouldPersist S S = false) /\
  (old = new -> files (snd (main s)) = files s).
Proof.
  intros Hf Ht Hb new old.
  destruct (main_gate s s0 s1 raw sched Hf Ht Hb) as [Hmain Hfiles].
  assert (Hlog : st_log s1 = st_log s)
    by (unfold files in Hfiles; congruence).
  assert (Hyes : shouldPersist new old = true ->
                 fst (main s) = Ok tt /\
                 st_output (snd (main s)) = Some (json_dump_indent2 new) /\
                 st_log (snd (main s))
                 = (st_log s
                    ++ [("[" ++ fst (now_strftime (st_world s1))
                         ++ "] Updated: "
                         ++ str_of_Z (Z.of_nat (List.length sched))
                         ++ " matches found. Hash: " ++ fingerprint new
                         ++ newline)%string])%list).
  { intros Hp. rewrite Hmain. fold new old. rewrite Hp. simpl.
    unfold persisted. destruct (now_strftime (st_world s1)) as [ts w].
    simpl. rewrite Hlog. auto. }
  assert (Hno : shouldPersist new old = false ->
                fst (main s) = Ok tt /\ files (snd (main s)) = files s).
  { intros Hp. rewrite Hmain. fold new old. rewrite Hp. simpl. auto. }
  assert (Hsame : forall S, shouldPersist S S = false)
    by apply shouldPersist_same.
  repeat split.
  - apply Hyes, shouldPersist_iff; assumption.
  - apply Hyes, shouldPersist_iff; assumption.
  - apply Hyes, shouldPersist_iff; assumption.
  - apply Hno. unfold shouldPersist. rewrite H. now rewrite String.eqb_refl.
  - apply Hno. unfold shouldPersist. rewrite H. now rewrite String.eqb_refl.
  - intros Hch. destruct (shouldPersist new old) eqn:Hp; [reflexivity|].
    destruct (Hno eq_refl) as [_ Hsamef]. contradiction.
  - intros Hp Heq. destruct (Hyes Hp) as (_ & _ & Hl).
    unfold files in Heq. injection Heq as _ Heq. rewrite Hl in Heq.
    apply (f_equal (@List.length string)) in Heq.
    rewrite length_app in Heq. simpl in Heq. lia.
  - unfold old, oldSchedule. now intros ->.
  - unfold old, oldSchedule. now intros text -> ->.
  - unfold old, oldSchedule. now intros text v -> ->.
  - exact Hsame.
  - intros Heq. apply Hno. rewrite Heq. apply Hsame.
Qed.

Lemma fetch_matches_run (s : state) :
  fetch_matches s
  = let (o, w) := http_get API_URL 15 (st_world s) in
    (Ok (match o with
         | Failed => JList []
         | Response code text =>
             if (400 <=? code) && (code <? 600) then JList []
             else match json_loads text with
                  | Some v => v
                  | None => JList []
                  end
         end),
     sent s API_URL w).
Proof.
  unfold fetch_matches, try_except, bind, requests_get, lift, ret, sent.
  destruct (http_get API_URL 15 (st_world s)) as [[|code text] w];
    [reflexivity|].
  unfold raise_for_status, response_json. simpl.
  destruct ((400 <=? code) && (code <? 600)); [reflexivity|].
  destruct (json_loads text); reflexivity.
Qed.

(** C6 as the code has it: the fetch of the match list never raises; a
    request that raises, a status from 400 to 599 and a body that does not
    parse make it the empty list, while any other status, 2xx or not, with
    a body that parses gives that body; and whenever the fetch yields the
    empty list, the run ends right after it: the request to the API is the
    only thing that happened, the snapshot and the log are as they were. *)
Theorem no_data_short_circuit (s : state) :
  (exists raw, fst (fetch_matches s) = Ok raw) /\
  (fetch_fails s -> fst (fetch_matches s) = Ok (JList [])) /\
  (forall code text v,
     fst (http_get API_URL 15 (st_world s)) = Response code text ->
     code < 400 \/ 600 <= code ->
     json_loads text = Some v ->
     fst (fetch_matches s) = Ok v) /\
  (fst (fetch_matches s) = Ok (JList []) ->
   main s = (Ok tt, snd (fetch_matches s)) /\
   st_output (snd (main s)) = st_output s /\
   st_log (snd (main s)) = st_log s /\
   st_requests (snd (main s)) = (st_requests s ++ [API_URL])%list).
Proof.
  split; [|split; [|split]].
  - rewrite fetch_matches_run.
    destruct (http_get API_URL 15 (st_world s)). simpl. eauto.
  - rewrite fetch_matches_run.
    intros [Hr | code text Hr Hc | code text Hr Hp];
      destruct (http_get API_URL 15 (st_world s)) as [o w];
      simpl in *; subst o; [reflexivity| |].
    + replace ((400 <=? code) && (code <? 600)) with true; [reflexivity|].
      symmetry. apply andb_true_intro.
      split; [apply Z.leb_le | apply Z.ltb_lt]; lia.
    + rewrite Hp. now destruct (_ && _).
  - intros code text v Hr Hc Hp. rewrite fetch_matches_run.
    destruct (http_get API_URL 15 (st_world s)) as [o w]. simpl in *.
    subst o. rewrite Hp.
    replace ((400 <=? code) && (code <? 600)) with false; [reflexivity|].
    symmetry. apply andb_false_iff.
    destruct Hc; [left; apply Z.leb_gt | right; apply Z.ltb_ge]; lia.
  - intros Hempty.
    assert (Hmain : main s = (Ok tt, snd (fetch_matches s))).
    { unfold main, bind.
      destruct (fetch_matches s) as [[raw|e] s0]; simpl in *;
        [|discriminate].
      injection Hempty as ->. reflexivity. }
    rewrite Hmain. split; [reflexivity|].
    rewrite fetch_matches_run.
    destruct (http_get API_URL 15 (st_world s)). simpl. auto.
Qed.

Lemma collect_all_none (results : list (result json)) :
  Forall (fun r => r = Ok JNull) results ->
  forall acc, collect_results results acc = Ok acc.
Proof.
  induction 1 as [|r results Hr _ IH]; intros acc; simpl.
  - reflexivity.
  - subst r. simpl. apply IH.
Qed.

(** C7: when the match list is not empty and every match is filtered out,
    the run is not cut short: it reaches the gate with the empty schedule,
    and writes it (snapshot and one log entry) exactly when its fingerprint
    differs from that of the previous schedule.  When the snapshot is
    missing, does not parse or is the empty schedule already, nothing is
    written. *)
Theorem all_filtered_run (s s0 s1 : state) (raws : list json)
  (results : list (result json)) :
  fetch_matches s = (Ok (JList raws), s0) ->
  raws <> [] ->
  executor_map process_match raws s0 = (Ok results, s1) ->
  Forall (fun r => r = Ok JNull) results ->
  main s = (Ok tt,
            if shouldPersist (JList []) (oldSchedule s)
            then persisted s1 [] else s1) /\
  (fingerprint (JList []) <> fingerprint (oldSchedule s) ->
   st_output (snd (main s)) = Some (json_dump_indent2 (JList [])) /\
   exists entry, st_log (snd (main s)) = (st_log s ++ [entry])%list) /\
  (fingerprint (JList []) = fingerprint (oldSchedule s) ->
   files (snd (main s)) = files s) /\
  (oldSchedule s = JList [] -> files (snd (main s)) = files s).
Proof.
  intros Hf Hne Hrun Hall.
  assert (Hb : build_schedule (JList raws) s0 = (Ok [], s1)).
  { unfold build_schedule, bind, lift. simpl. rewrite Hrun.
    now rewrite (collect_all_none results Hall). }
  assert (Ht : py_truthy (JList raws) = true)
    by (destruct raws; [contradiction | reflexivity]).
  destruct (main_gate s s0 s1 (JList raws) [] Hf Ht Hb) as [Hmain Hfiles].
  assert (Hno : shouldPersist (JList []) (oldSchedule s) = false ->
                files (snd (main s)) = files s).
  { intros Hp. rewrite Hmain, Hp. exact Hfiles. }
  split; [exact Hmain|]. split; [|split].
  - intros Hd. apply shouldPersist_iff in Hd. rewrite Hmain, Hd. simpl.
    unfold persisted. destruct (now_strftime (st_world s1)) as [ts w].
    simpl. unfold files in Hfiles.
    replace (st_log s1) with (st_log s) by congruence. eauto.
  - intros He. apply Hno. unfold shouldPersist.
    rewrite He. now rewrite String.eqb_refl.
  - intros He. apply Hno. rewrite He. apply shouldPersist_same.
Qed.

Lemma process_match_dict (m : json) (s : state) (r : json) :
  fst (process_match m s) = Ok r -> exists raw, m = JObj raw.
Proof.
  destruct m; try (unfold process_match, bind, lift; simpl; discriminate).
  eauto.
Qed.

(** C10: a raw match without a [date] has date 0, so its task answers
    [None] whenever the clock it reads is later than 43,200,000 ms after the
    epoch; and on a host whose clock always is, every entry of the schedule
    a run builds comes from a raw match that has a [date]. *)
Theorem dateless_match_filtered :
  (forall (raw : dict) (s : state),
     lookup "date" raw = None ->
     fst (time_ms (st_world s)) > 43200000 ->
     date_of raw = Ok 0 /\ fst (process_match (JObj raw) s) = Ok JNull) /\
  ((forall w, fst (time_ms w) > 43200000) ->
   forall (raws : list json) (s s' : state) (schedule : list json),
     build_schedule (JList raws) s = (Ok schedule, s') ->
     forall entry, In entry schedule ->
     exists raw s1,
       In (JObj raw) raws /\ lookup "date" raw <> None /\
       fst (process_match (JObj raw) s1) = Ok entry).
Proof.
  assert (Hone : forall (raw : dict) (s : state),
             lookup "date" raw = None ->
             fst (time_ms (st_world s)) > 43200000 ->
             date_of raw = Ok 0 /\
             fst (process_match (JObj raw) s) = Ok JNull).
  { intros raw s Hnone Hnow.
    assert (Hd : date_of raw = Ok 0)
      by (unfold date_of, field; now rewrite Hnone).
    split; [exact Hd|].
    rewrite (process_match_filter raw 0 s Hd); [reflexivity|].
    rewrite twelve_hours. lia. }
  split; [exact Hone|].
  intros Hclock raws s s' schedule Hb entry Hin.
  unfold build_schedule, bind, lift in Hb. simpl in Hb.
  destruct (executor_map process_match raws s) as [[results|e] s1] eqn:Hrun;
    [|discriminate].
  destruct (collect_results results []) as [l|e] eqn:Hc; [|discriminate].
  destruct (sort_by_kickOff l) as [sorted|e] eqn:Hs; [|discriminate].
  injection Hb as <- _.
  apply (Permutation_in _ (sort_by_kickOff_perm l sorted Hs)) in Hin.
  destruct (collect_results_from results [] l Hc entry Hin)
    as [[] | [Hres Htrue]].
  destruct (executor_map_from raws s results s1 Hrun (Ok entry) Hres)
    as (m & st & Hm & Hr).
  symmetry in Hr.
  destruct (process_match_dict m st entry Hr) as [raw ->].
  exists raw, st. split; [exact Hm|]. split; [|exact Hr].
  intros Hnone.
  destruct (Hone raw st Hnone (Hclock _)) as [_ Hnull].
  rewrite Hr in Hnull. injection Hnull as ->. discriminate Htrue.
Qed.

(** C5 as the code has it: nothing reads the clock before the tasks are
    dispatched; each task reads it itself, at its start, and its match is
    filtered against that reading.  In a run of the pool from state [s] in
    which no task raises, the result of every raw match with a numeric date
    [d] (one a float holds) is [None] exactly when the clock read in the
    state its own task starts in is more than 12 hours past [d]; the first
    task starts in [s] itself. *)
Theorem filter_instant_per_task (raws : list json) (s s' : state)
  (results : list (result json)) :
  executor_map process_match raws s = (Ok results, s') ->
  first_raised results = None ->
  Forall2
    (fun task r =>
       forall raw d,
         fst task = JObj raw -> date_of raw = Ok d ->
         (r = Ok JNull <->
          fst (time_ms (st_world (snd task))) - d > 43200000))
    (combine raws (task_states raws s)) results /\
  hd_error (task_states raws s) = match raws with [] => None | _ => Some s end.
Proof.
  intros Hrun _. split; [|destruct raws; reflexivity].
  apply executor_map_results in Hrun.
  induction Hrun as [|[m st] r tasks results Hr _ IH]; constructor;
    [|exact IH].
  simpl in *. intros raw d -> Hd. subst r.
  split.
  - intros Hnone.
    destruct (Z_gt_le_dec (fst (time_ms (st_world st)) - d) 43200000)
      as [H|H]; [exact H|].
    exfalso. apply (process_match_kept_not_none raw d st Hd);
      [rewrite twelve_hours; exact H | exact Hnone].
  - intros H. rewrite (process_match_filter raw d st Hd); [reflexivity|].
    rewrite twelve_hours. exact H.
Qed.

(** ** The normalized match *)

(** C4: for a well-shaped raw match that passes the filter, [process_match]
    returns a match whose [links] are the streams of its sources, one source
    after the other in the order of [sources], each source's streams in the
    order of its response; an element of a response becomes [url] (its
    [embedUrl] as it is, null when absent), [language] ("Unknown" when
    absent) and [hd] (false when absent); a source whose lookup fails adds
    nothing. *)
Theorem links_follow_sources (raw : dict) (d : Z) (iso : string) (s : state) :
  well_shaped raw = true ->
  date_of raw = Ok d ->
  fromtimestamp_isoformat d = Some iso ->
  fst (time_ms (st_world s)) - d <= 43200000 ->
  let s0 := with_world s (snd (time_ms (st_world s))) in
  (exists nm,
     fst (process_match (JObj raw) s) = Ok nm /\
     at_key "links" nm = JList (fst (links_of (refs_of raw) s0))) /\
  (forall ref rest s1,
     links_of (JObj ref :: rest) s1
     = ((fst (lookup_source ref s1)
         ++ fst (links_of rest (snd (lookup_source ref s1))))%list,
        snd (links_of rest (snd (lookup_source ref s1))))) /\
  (forall ref s1, lookup_fails ref s1 -> fst (lookup_source ref s1) = []) /\
  (forall ref s1 text items,
     valid_ref ref = true ->
     fst (http_get (source_url ref) 6 (st_world s1)) = Response 200 text ->
     json_loads text = Some (JList (map JObj items)) ->
     fst (lookup_source ref s1) = map stream_descriptor items) /\
  (forall element,
     stream_descriptor element
     = JObj [("url", match lookup "embedUrl" element with
                     | Some v => v | None => JNull end);
             ("language", match lookup "language" element with
                          | Some v => v | None => JStr "Unknown" end);
             ("hd", match lookup "hd" element with
                    | Some v => v | None => JBool false end)]).
Proof.
  intros Hw Hd Hiso Hin s0.
  rewrite <- twelve_hours in Hin.
  split; [|split; [|split; [|split]]].
  - rewrite (process_match_kept raw d iso s Hw Hd Hiso Hin).
    eexists. split; reflexivity.
  - intros ref rest s1. simpl.
    destruct (lookup_source ref s1) as [streams s2]. simpl.
    destruct (links_of rest s2). reflexivity.
  - apply lookup_fails_nothing.
  - intros ref s1 text items Hv Hr Hp.
    unfold lookup_source. rewrite Hv.
    destruct (http_get (source_url ref) 6 (st_world s1)) as [o w].
    simpl in *. subst o.
    assert (Hobjs : forallb is_obj (map JObj items) = true)
      by (clear; induction items; simpl; auto).
    unfold resolved_streams, deep_link_failed. rewrite Hp. simpl.
    rewrite Hobjs. simpl. rewrite map_map. reflexivity.
  - reflexivity.
Qed.

(** C8 as the code has it: for a well-shaped raw match ([teams], [home],
    [away] absent, null, otherwise false, or objects; [sources] absent, null,
    otherwise false, or an array of objects) whose [date] is absent or a
    number that [datetime.fromtimestamp] accepts, [process_match] returns
    without raising: [None], or the normalized match with its defaults. *)
Theorem process_match_returns (raw : dict) (d : Z) (iso : string) (s : state) :
  well_shaped raw = true ->
  date_of raw = Ok d ->
  fromtimestamp_isoformat d = Some iso ->
  exists r,
    fst (process_match (JObj raw) s) = Ok r /\
    (r = JNull \/ exists links, r = normalized raw iso links).
Proof.
  intros Hw Hd Hiso.
  destruct (Z_gt_le_dec (fst (time_ms (st_world s)) - d) TWELVE_HOURS_MS)
    as [Hlate | Hin].
  - rewrite (process_match_filter raw d s Hd Hlate). simpl. eauto.
  - rewrite (process_match_kept raw d iso s Hw Hd Hiso Hin). simpl. eauto.
Qed.


End Properties.

(** * Runs on the sample host *)

Module Runs.

Import Demo.

#[local] Existing Instance sample_host.

(** C1, on the sample server: a ref without [id], an error status, a
    timeout, a body that is not JSON, a body that is not an array. *)
Lemma resolve_source_fail_open_witness :
  fst (resolve_source (JObj [("source", JStr "alpha")]) idle) = Ok [] /\
  fst (resolve_source (ref "bravo" "2") idle) = Ok [] /\
  fst (resolve_source (ref "charlie" "3") idle) = Ok [] /\
  fst (resolve_source (ref "delta" "4") idle) = Ok [] /\
  fst (resolve_source (ref "echo" "5") idle) = Ok [].
Proof.
  refine (conj _ (conj _ (conj _ (conj _ _)))).
  - apply (resolve_source_fail_open [("source", JStr "alpha")] idle).
    apply no_id. reflexivity.
  - apply (resolve_source_fail_open (fields_of (ref "bravo" "2")) idle).
    apply status_not_200 with (code := 500) (text := "Internal Server Error");
      [reflexivity | lia].
  - apply (resolve_source_fail_open (fields_of (ref "charlie" "3")) idle).
    apply request_raises. reflexivity.
  - apply (resolve_source_fail_open (fields_of (ref "delta" "4")) idle).
    apply body_unparsable with (text := "<html>busy</html>"); reflexivity.
  - apply (resolve_source_fail_open (fields_of (ref "echo" "5")) idle).
    apply body_malformed
      with (text := dumps_sorted error_document) (data := error_document);
      [reflexivity | reflexivity | discriminate].
Defined.

(** C3, on the sample host: the stale match is answered with [None] and
    nothing is requested; the fresh one is not answered with [None]. *)
Lemma process_match_absent_iff_witness :
  date_of stale_match = Ok (boot - 13 * hour) /\
  fst (process_match (JObj stale_match) idle) = Ok JNull /\
  st_requests (snd (process_match (JObj stale_match) idle)) = [] /\
  date_of fresh_match = Ok (boot - hour) /\
  fst (process_match (JObj fresh_match) idle) <> Ok JNull.
Proof.
  assert (Hlate : fst (time_ms (st_world idle)) - (boot - 13 * hour)
                  > 43200000) by (vm_compute; reflexivity).
  assert (Hin : ~ fst (time_ms (st_world idle)) - (boot - hour) > 43200000)
    by (vm_compute; discriminate).
  pose proof (process_match_absent_iff stale_match (boot - 13 * hour) idle
                eq_refl) as [Hiff Hret].
  pose proof (process_match_absent_iff fresh_match (boot - hour) idle
                eq_refl) as [Hiff' _].
  refine (conj eq_refl (conj _ (conj _ (conj eq_refl _)))).
  - apply Hiff, Hlate.
  - apply (proj2 (Hret Hlate)).
  - intros Hnone. apply Hin, Hiff', Hnone.
Defined.

(** C3 as stated fails: a date further back than a float can hold is a
    number, and the clock is more than 12 hours past it, yet the answer is
    not [None]: the subtraction of line 70 raises. *)
Lemma date_beyond_float_raises :
  lookup "date" ancient_match = Some (JNum (- (10 ^ 400))) /\
  fst (time_ms (st_world idle)) - (- (10 ^ 400)) > 43200000 /\
  fst (process_match (JObj ancient_match) idle) = Raise OverflowError /\
  fst (process_match (JObj ancient_match) idle) <> Ok JNull.
Proof.
  assert (H : fst (process_match (JObj ancient_match) idle)
              = Raise OverflowError) by (vm_compute; reflexivity).
  refine (conj eq_refl (conj _ (conj H _))).
  - vm_compute. reflexivity.
  - rewrite H. discriminate.
Qed.

(** C4, the scenario: one source that resolves to one stream. *)
Lemma links_follow_sources_witness :
  well_shaped bare_match = true /\
  date_of bare_match = Ok boot /\
  fromtimestamp_isoformat boot = Some "2023-11-14T22:13:20" /\
  exists nm,
    fst (process_match (JObj bare_match) idle) = Ok nm /\
    at_key "links" nm
    = JList [JObj [("url", JStr "http://x"); ("language", JStr "EN");
                   ("hd", JBool true)]].
Proof.
  refine (conj eq_refl (conj eq_refl (conj eq_refl _))).
  assert (Hin : fst (time_ms (st_world idle)) - boot <= 43200000)
    by (vm_compute; discriminate).
  exact (proj1 (links_follow_sources bare_match boot "2023-11-14T22:13:20"
                  idle eq_refl eq_refl eq_refl Hin)).
Defined.

(** C8, on the sample host: the fresh match, with everything, and the
    dateless one, with next to nothing. *)
Lemma process_match_returns_witness :
  (exists r, fst (process_match (JObj fresh_match) idle) = Ok r /\
             (r = JNull \/
              exists links,
                r = normalized fresh_match "2023-11-14T21:13:20" links)) /\
  (exists r, fst (process_match (JObj dateless_match) idle) = Ok r /\
             (r = JNull \/
              exists links,
                r = normalized dateless_match "1970-01-01T00:00:00" links)).
Proof.
  split.
  - exact (process_match_returns fresh_match (boot - hour)
             "2023-11-14T21:13:20" idle eq_refl eq_refl eq_refl).
  - exact (process_match_returns dateless_match 0
             "1970-01-01T00:00:00" idle eq_refl eq_refl eq_refl).
Defined.

(** C8 as stated fails: a raw match whose [teams] is a string makes
    [process_match] raise. *)
Lemma process_match_raises_on_odd_teams :
  fst (process_match (JObj odd_match) idle) = Raise AttributeError /\
  ~ exists r, fst (process_match (JObj odd_match) idle) = Ok r.
Proof.
  split; [reflexivity|].
  intros [r Hr]. discriminate Hr.
Qed.



(** C2, on the sample host: the first run finds no snapshot and persists,
    one line in the log; the second, over the same data, finds the snapshot
    it would write and leaves the files alone. *)
Lemma change_gate_witness :
  (st_output (snd (main first_run))
   = Some (json_dump_indent2 (JList [fresh_normalized])) /\
   st_log (snd (main first_run))
   = [("[2023-11-14 22:13:20] Updated: 1 matches found. Hash: "
       ++ fingerprint (JList [fresh_normalized]) ++ newline)%string]) /\
  oldSchedule second_run = JList [fresh_normalized] /\
  files (snd (main second_run)) = files second_run.
Proof.
  pose proof (change_gate first_run
                (snd (fetch_matches first_run))
                (snd (build_schedule
                        (JList [JObj fresh_match; JObj stale_match])
                        (snd (fetch_matches first_run))))
                (JList [JObj fresh_match; JObj stale_match])
                [fresh_normalized] eq_refl eq_refl eq_refl)
    as (Hyes & _).
  pose proof (change_gate second_run
                (snd (fetch_matches second_run))
                (snd (build_schedule
                        (JList [JObj fresh_match; JObj stale_match])
                        (snd (fetch_matches second_run))))
                (JList [JObj fresh_match; JObj stale_match])
                [fresh_normalized] eq_refl eq_refl eq_refl)
    as (_ & _ & _ & _ & _ & _ & _ & Hsame).
  refine (conj _ (conj eq_refl _)).
  - assert (Hp : fingerprint (JList [fresh_normalized])
                 <> fingerprint (oldSchedule first_run))
      by (vm_compute; discriminate).
    destruct (Hyes Hp) as (_ & Ho & Hl).
    split; [exact Ho|].
    rewrite Hl. vm_compute. reflexivity.
  - apply Hsame. reflexivity.
Defined.

(** C5 as stated fails: two copies of one match in one run, the first kept
    and the second filtered out; no instant answers for both. *)
Lemma no_common_instant :
  exists kept,
    fst (executor_map process_match [JObj edge_match; JObj edge_match] idle)
    = Ok [Ok (JObj kept); Ok JNull] /\
    fst (build_schedule (JList [JObj edge_match; JObj edge_match]) idle)
    = Ok [JObj kept] /\
    ~ exists now_ms,
        filtered_against now_ms [JObj edge_match; JObj edge_match]
          [Ok (JObj kept); Ok JNull].
Proof.
  eexists. split; [vm_compute; reflexivity|].
  split; [vm_compute; reflexivity|].
  intros [now_ms H].
  apply Forall2_cons_iff in H as [H1 Hrest].
  apply Forall2_cons_iff in Hrest as [H2 _].
  specialize (H1 edge_match (boot - 12 * hour) eq_refl eq_refl).
  specialize (H2 edge_match (boot - 12 * hour) eq_refl eq_refl).
  destruct H1 as [_ H1]. destruct H2 as [H2 _].
  specialize (H1 (H2 eq_refl)). discriminate H1.
Qed.

(** C5 as the code has it, on the same run: each copy is filtered against
    the clock its own task reads, 12 h past the date for the first, a
    millisecond more for the second. *)
Lemma filter_instant_per_task_witness :
  exists kept s1,
    task_states [JObj edge_match; JObj edge_match] idle = [idle; s1] /\
    fst (time_ms (st_world idle)) - (boot - 12 * hour) = 43200000 /\
    fst (time_ms (st_world s1)) - (boot - 12 * hour) = 43200001 /\
    Forall2
      (fun task r =>
         forall raw d,
           fst task = JObj raw -> date_of raw = Ok d ->
           (r = Ok JNull <->
            fst (time_ms (st_world (snd task))) - d > 43200000))
      [(JObj edge_match, idle); (JObj edge_match, s1)]
      [Ok (JObj kept); Ok JNull].
Proof.
  eexists. eexists.
  refine (conj eq_refl (conj eq_refl (conj eq_refl _))).
  exact (proj1 (filter_instant_per_task
                  [JObj edge_match; JObj edge_match] idle _ _ eq_refl
                  eq_refl)).
Defined.

(** C6 as stated fails: status 300 is not a 2xx one, yet its body is taken
    as the matches, and the run goes on to write the snapshot and the
    log. *)
Lemma status_300_is_data :
  fst (http_get API_URL 15 (st_world redirected_run))
  = Response 300 (dumps_sorted (JList [JObj fresh_match; JObj stale_match])) /\
  fst (fetch_matches redirected_run)
  = Ok (JList [JObj fresh_match; JObj stale_match]) /\
  fst (fetch_matches redirected_run) <> Ok (JList []) /\
  st_output redirected_run = None /\
  st_output (snd (main redirected_run))
  = Some (json_dump_indent2 (JList [fresh_normalized])) /\
  List.length (st_log (snd (main redirected_run))) = 1%nat.
Proof.
  assert (H : fst (fetch_matches redirected_run)
              = Ok (JList [JObj fresh_match; JObj stale_match]))
    by (vm_compute; reflexivity).
  refine (conj _ (conj H (conj _ (conj eq_refl (conj _ _)))));
    try (vm_compute; reflexivity).
  rewrite H. discriminate.
Qed.

(** C6, on the sample host: the API times out, answers with an error
    status, or answers with the empty array; nothing is written. *)
Lemma no_data_short_circuit_witness :
  (fst (fetch_matches (before (world_with Failed) None [])) = Ok (JList []) /\
   main (before (world_with Failed) None [])
   = (Ok tt, snd (fetch_matches (before (world_with Failed) None [])))) /\
  fst (fetch_matches (before (world_with (Response 503 "busy")) None []))
  = Ok (JList []) /\
  (st_output (snd (main idle)) = None /\
   st_log (snd (main idle)) = [] /\
   st_requests (snd (main idle)) = [API_URL]).
Proof.
  refine (conj _ (conj _ _)).
  - pose proof (no_data_short_circuit (before (world_with Failed) None []))
      as (_ & Hfail & _ & Hmain).
    assert (Hempty : fst (fetch_matches (before (world_with Failed) None []))
                     = Ok (JList []))
      by (apply Hfail, fetch_raises; reflexivity).
    split; [exact Hempty | apply (Hmain Hempty)].
  - apply (no_data_short_circuit
             (before (world_with (Response 503 "busy")) None [])).
    apply fetch_error_status with (code := 503) (text := "busy");
      [reflexivity | lia].
  - apply (no_data_short_circuit idle). reflexivity.
Defined.

(** C7 as the code has it, on the sample host: the previous schedule had a
    match, so the empty schedule is written. *)
Lemma all_filtered_run_witness :
  oldSchedule emptying_run = JList [fresh_normalized] /\
  st_output (snd (main emptying_run)) = Some "[]" /\
  exists entry,
    st_log (snd (main emptying_run))
    = (st_log emptying_run ++ [entry])%list.
Proof.
  pose proof (all_filtered_run emptying_run
                (snd (fetch_matches emptying_run))
                (snd (executor_map process_match [JObj stale_match]
                        (snd (fetch_matches emptying_run))))
                [JObj stale_match] [Ok JNull] eq_refl)
    as H.
  assert (Hne : [JObj stale_match] <> []) by discriminate.
  specialize (H Hne eq_refl (Forall_cons _ eq_refl (Forall_nil _))).
  destruct H as (_ & Hwrite & _).
  split; [reflexivity|].
  apply Hwrite. vm_compute. discriminate.
Defined.

(** C7 as stated fails: the list has a match, the match is filtered out,
    there is no snapshot yet; the run writes none. *)
Lemma all_filtered_first_run_writes_nothing :
  fst (fetch_matches (before (serving (JList [JObj stale_match])) None []))
  = Ok (JList [JObj stale_match]) /\
  fst (process_match (JObj stale_match)
         (snd (fetch_matches
                 (before (serving (JList [JObj stale_match])) None []))))
  = Ok JNull /\
  fst (main (before (serving (JList [JObj stale_match])) None [])) = Ok tt /\
  st_output (snd (main (before (serving (JList [JObj stale_match])) None [])))
  = None /\
  st_output (snd (main (before (serving (JList [JObj stale_match])) None [])))
  <> Some (json_dump_indent2 (JList [])) /\
  st_log (snd (main (before (serving (JList [JObj stale_match])) None [])))
  = [].
Proof.
  refine (conj eq_refl (conj eq_refl (conj eq_refl (conj eq_refl
            (conj _ eq_refl))))).
  discriminate.
Qed.

(** C10, on the sample host: the dateless match is answered with [None],
    and the schedule of a run over it and the bare match has the bare match
    only. *)
Lemma dateless_match_filtered_witness :
  (date_of dateless_match = Ok 0 /\
   fst (process_match (JObj dateless_match) idle) = Ok JNull) /\
  exists entry,
    fst (build_schedule (JList [JObj dateless_match; JObj bare_match]) idle)
    = Ok [entry] /\
    exists raw s1,
      In (JObj raw) [JObj dateless_match; JObj bare_match] /\
      lookup "date" raw <> None /\
      fst (process_match (JObj raw) s1) = Ok entry.
Proof.
  destruct dateless_match_filtered as [Hone Hrun].
  split.
  - apply Hone; [reflexivity | vm_compute; reflexivity].
  - eexists. split; [reflexivity|].
    assert (Hclock : forall w, fst (time_ms w) > 43200000)
      by (intros w; simpl; unfold clock, boot; lia).
    apply (Hrun Hclock [JObj dateless_match; JObj bare_match] idle
             (snd (build_schedule
                     (JList [JObj dateless_match; JObj bare_match]) idle))
             _ eq_refl).
    left. reflexivity.
Defined.

End Runs.

(** * More of the code *)

Section Further.

Context {host : Host}.

(** ** The order of the schedule *)

Lemma ltb_leb (a b : string) : String.ltb a b = true -> String.leb a b = true.
Proof.
  unfold String.ltb, String.leb. destruct (String.compare a b); congruence.
Qed.

Lemma ltb_false_leb (a b : string) :
  String.ltb a b = false -> String.leb b a = true.
Proof.
  unfold String.ltb, String.leb. rewrite (String.compare_antisym a b).
  destruct (String.compare b a); simpl; congruence.
Qed.

Lemma leb_ltb_false (a b : string) :
  String.leb a b = true -> String.ltb b a = false.
Proof.
  unfold String.ltb, String.leb. rewrite (String.compare_antisym b a).
  destruct (String.compare a b); simpl; congruence.
Qed.

Lemma leb_cases (a b : string) :
  String.leb a b = true <-> String_as_OT.lt a b \/ a = b.
Proof.
  unfold String.leb. rewrite <- String_as_OT.cmp_lt.
  unfold String_as_OT.cmp.
  destruct (String.compare a b) eqn:Hc; split; intros H; try congruence.
  - right. now apply String.compare_eq_iff.
  - now left.
  - destruct H as [H | ->]; [discriminate|].
    assert (String.compare b b = Eq) by (now apply String_as_OT.cmp_eq).
    congruence.
Qed.

Lemma leb_trans (a b c : string) :
  String.leb a b = true -> String.leb b c = true -> String.leb a c = true.
Proof.
  rewrite !leb_cases. intros [Hab | ->] [Hbc | ->]; auto.
  left. eapply String_as_OT.lt_trans; eassumption.
Qed.

Lemma insert_keyed_sorted (e : string * json) (l : list (string * json)) :
  StronglySorted key_le l -> StronglySorted key_le (insert_keyed e l).
Proof.
  induction 1 as [|e' rest Hrest IH Hall]; simpl.
  - repeat constructor.
  - destruct (String.ltb (fst e) (fst e')) eqn:Hlt.
    + constructor; [now constructor|].
      constructor; [exact (ltb_leb _ _ Hlt)|].
      eapply Forall_impl; [|exact Hall].
      intros x Hx. unfold key_le in *.
      eapply leb_trans; [exact (ltb_leb _ _ Hlt) | exact Hx].
    + constructor; [exact IH|].
      apply Forall_forall. intros x Hx.
      apply (Permutation_in _ (insert_keyed_perm e rest)) in Hx.
      destruct Hx as [<- | Hx].
      * exact (ltb_false_leb _ _ Hlt).
      * rewrite Forall_forall in Hall. now apply Hall.
Qed.

Lemma fold_insert_sorted (ks : list (string * json)) :
  forall acc,
  StronglySorted key_le acc ->
  StronglySorted key_le (fold_left (fun acc e => insert_keyed e acc) ks acc).
Proof.
  induction ks as [|e ks IH]; intros acc Hacc; simpl; [exact Hacc|].
  apply IH, insert_keyed_sorted, Hacc.
Qed.

Lemma keyed_keys (l : list json) :
  forall ks, keyed l = Ok ks ->
  Forall (fun p => sort_key (snd p) = Ok (fst p)) ks.
Proof.
  induction l as [|x l IH]; intros ks Hk; simpl in *.
  - injection Hk as <-. constructor.
  - destruct (sort_key x) as [k|e] eqn:Hx; [|discriminate]. simpl in Hk.
    destruct (keyed l) as [r|e]; [|discriminate]. simpl in Hk.
    injection Hk as <-. constructor; [exact Hx | now apply IH].
Qed.

Lemma sorted_values (ks : list (string * json)) :
  Forall (fun p => sort_key (snd p) = Ok (fst p)) ks ->
  StronglySorted key_le ks ->
  StronglySorted kickOff_le (map snd ks).
Proof.
  intros Hkeys Hs. induction Hs as [|p ks Hs IH Hall]; simpl.
  - constructor.
  - inversion Hkeys as [|p' ks' Hp Hks]; subst.
    constructor; [now apply IH|].
    apply Forall_forall. intros x Hx.
    apply in_map_iff in Hx as (q & <- & Hq).
    rewrite Forall_forall in Hall, Hks.
    unfold kickOff_le. rewrite Hp, (Hks q Hq). exact (Hall q Hq).
Qed.

Lemma sort_by_kickOff_sorted (l sorted : list json) :
  sort_by_kickOff l = Ok sorted -> StronglySorted kickOff_le sorted.
Proof.
  unfold sort_by_kickOff. intros Hs.
  destruct (keyed l) as [ks|e] eqn:Hk; [|discriminate]. simpl in Hs.
  injection Hs as <-.
  apply sorted_values.
  - pose proof (keyed_keys l ks Hk) as Hkeys.
    apply Forall_forall. intros p Hp. rewrite Forall_forall in Hkeys.
    apply Hkeys.
    apply (Permutation_in _ (fold_insert_perm ks [])) in Hp.
    now rewrite app_nil_r in Hp.
  - apply fold_insert_sorted. constructor.
Qed.

(** ** What the pool's results become *)

Lemma collect_results_kept (results : list (result json)) :
  forall acc,
  collect_results results acc
  = match first_raised results with
    | Some e => Raise e
    | None => Ok (acc ++ kept results)%list
    end.
Proof.
  induction results as [|[v|e] results IH]; intros acc; simpl.
  - now rewrite app_nil_r.
  - destruct (py_truthy v); rewrite IH;
      destruct (first_raised results); try reflexivity.
    now rewrite <- app_assoc.
  - reflexivity.
Qed.

Lemma build_schedule_run (raws : list json) (s : state) :
  build_schedule (JList raws) s
  = let (r, s') := executor_map process_match raws s in
    (match r with
     | Ok results =>
         match first_raised results with
         | Some e => Raise e
         | None => sort_by_kickOff (kept results)
         end
     | Raise e => Raise e
     end, s').
Proof.
  unfold build_schedule, bind, lift. simpl.
  destruct (executor_map process_match raws s) as [[results|e] s'];
    [|reflexivity].
  rewrite collect_results_kept. simpl.
  destruct (first_raised results); [reflexivity|].
  destruct (sort_by_kickOff (kept results)); reflexivity.
Qed.

Lemma insert_keyed_filter (k : string) (e : string * json)
  (l : list (string * json)) :
  StronglySorted key_le l ->
  filter (fun p => String.eqb (fst p) k) (insert_keyed e l)
  = (filter (fun p => String.eqb (fst p) k) l
     ++ filter (fun p => String.eqb (fst p) k) [e])%list.
Proof.
  induction 1 as [|e' rest Hrest IH Hall].
  - reflexivity.
  - cbn [insert_keyed].
    destruct (String.ltb (fst e) (fst e')) eqn:Hlt.
    + cbn [filter]. destruct (String.eqb (fst e) k) eqn:Hek;
        [|now rewrite app_nil_r].
      apply String.eqb_eq in Hek.
      assert (Hnone : forall x, In x (e' :: rest) ->
                                String.eqb (fst x) k = false).
      { intros x Hx. apply String.eqb_neq. intros Hxk.
        assert (Hle : String.leb (fst e') (fst x) = true).
        { destruct Hx as [<- | Hx].
          - destruct (String.leb_total (fst e') (fst e')); assumption.
          - rewrite Forall_forall in Hall. exact (Hall x Hx). }
        rewrite Hxk, <- Hek in Hle.
        apply leb_ltb_false in Hle. congruence. }
      assert (Hfil : filter (fun p => String.eqb (fst p) k) (e' :: rest) = []).
      { clear - Hnone. induction (e' :: rest) as [|x l IHl]; [reflexivity|].
        simpl. rewrite (Hnone x (or_introl eq_refl)).
        apply IHl. intros y Hy. apply Hnone. now right. }
      cbn [filter] in Hfil. rewrite Hfil. reflexivity.
    + cbn [filter]. rewrite IH.
      destruct (String.eqb (fst e') k); reflexivity.
Qed.

Lemma fold_insert_filter (k : string) (ks : list (string * json)) :
  forall acc,
  StronglySorted key_le acc ->
  filter (fun p => String.eqb (fst p) k)
    (fold_left (fun acc e => insert_keyed e acc) ks acc)
  = (filter (fun p => String.eqb (fst p) k) acc
     ++ filter (fun p => String.eqb (fst p) k) ks)%list.
Proof.
  induction ks as [|e ks IH]; intros acc Hacc; simpl fold_left.
  - now rewrite app_nil_r.
  - rewrite (IH _ (insert_keyed_sorted e acc Hacc)).
    rewrite (insert_keyed_filter k e acc Hacc), <- app_assoc.
    f_equal. simpl. destruct (String.eqb (fst e) k); reflexivity.
Qed.

Lemma filter_values (k : string) (ps : list (string * json)) :
  Forall (fun p => sort_key (snd p) = Ok (fst p)) ps ->
  filter (has_kickOff k) (map snd ps)
  = map snd (filter (fun p => String.eqb (fst p) k) ps).
Proof.
  induction 1 as [|p ps Hp _ IH]; simpl; [reflexivity|].
  unfold has_kickOff at 1. rewrite Hp.
  destruct (String.eqb (fst p) k); simpl; now rewrite IH.
Qed.

Lemma sort_by_kickOff_stable (l sorted : list json) (k : string) :
  sort_by_kickOff l = Ok sorted ->
  filter (has_kickOff k) sorted = filter (has_kickOff k) l.
Proof.
  unfold sort_by_kickOff. intros Hs.
  destruct (keyed l) as [ks|e] eqn:Hk; [|discriminate]. simpl in Hs.
  injection Hs as <-.
  pose proof (keyed_keys l ks Hk) as Hkeys.
  rewrite filter_values.
  - rewrite (fold_insert_filter k ks [] (SSorted_nil _)). simpl.
    rewrite <- filter_values by exact Hkeys.
    now rewrite (keyed_values l ks Hk).
  - apply Forall_forall. intros p Hp. rewrite Forall_forall in Hkeys.
    apply Hkeys.
    apply (Permutation_in _ (fold_insert_perm ks [])) in Hp.
    now rewrite app_nil_r in Hp.
Qed.

(** X1: the schedule a run builds is the kept results of its tasks (the
    ones that returned a match), none lost and none added, in ascending
    order of [kickOff]; no task of such a run raised. *)
Theorem schedule_sorted_kept (raws : list json) (s s' : state)
  (schedule : list json) :
  build_schedule (JList raws) s = (Ok schedule, s') ->
  exists results,
    executor_map process_match raws s = (Ok results, s') /\
    first_raised results = None /\
    Permutation schedule (kept results) /\
    StronglySorted kickOff_le schedule /\
    Sorted kickOff_le schedule.
Proof.
  rewrite build_schedule_run.
  destruct (executor_map process_match raws s) as [[results|e] s1];
    [|discriminate].
  destruct (first_raised results) eqn:Hr; [discriminate|].
  intros Hb. injection Hb as Hsort <-.
  exists results. split; [reflexivity|]. split; [exact Hr|].
  split; [now apply sort_by_kickOff_perm|].
  pose proof (sort_by_kickOff_sorted _ _ Hsort) as Hs.
  split; [exact Hs | now apply StronglySorted_Sorted].
Qed.

(** X2: the sort is stable: the entries of the schedule that share a
    [kickOff] are in the order their tasks were submitted in. *)
Theorem schedule_sort_stable (raws : list json) (s s' : state)
  (schedule : list json) (results : list (result json)) (k : string) :
  build_schedule (JList raws) s = (Ok schedule, s') ->
  fst (executor_map process_match raws s) = Ok results ->
  filter (has_kickOff k) schedule = filter (has_kickOff k) (kept results).
Proof.
  rewrite build_schedule_run.
  destruct (executor_map process_match raws s) as [[results'|e] s1];
    [|discriminate].
  destruct (first_raised results') eqn:Hr; [discriminate|].
  intros Hb Hres. injection Hb as Hsort <-.
  simpl in Hres. injection Hres as ->.
  now apply sort_by_kickOff_stable.
Qed.

(** ** The shape of what [process_match] returns *)

Lemma clean_streams_shape (data : list json) :
  forall cleaned l,
  Forall is_link cleaned ->
  clean_streams data cleaned = Ok l -> Forall is_link l.
Proof.
  induction data as [|x data IH]; intros cleaned l Hc Hl; simpl in Hl.
  - now injection Hl as <-.
  - destruct x; simpl in Hl; try discriminate.
    apply (IH _ _ ) in Hl; [exact Hl|].
    apply Forall_app. split; [exact Hc|].
    constructor; [|constructor].
    unfold is_link. eauto.
Qed.

Lemma lookup_source_shape (ref : dict) (s : state) :
  Forall is_link (fst (lookup_source ref s)).
Proof.
  unfold lookup_source.
  destruct (valid_ref ref); [|constructor].
  destruct (http_get (source_url ref) 6 (st_world s)) as [o w]. simpl.
  unfold resolved_streams.
  destruct (deep_link_failed o); [constructor|].
  destruct o as [|code text]; [constructor|].
  destruct (json_loads text) as [[| | | | items |]|]; try constructor.
  apply Forall_forall. intros x Hx.
  apply in_map_iff in Hx as (e & <- & _).
  unfold is_link, stream_descriptor. eauto.
Qed.

Lemma resolve_source_shape (source_info : json) (s s' : state)
  (l : list json) :
  resolve_source source_info s = (Ok l, s') -> Forall is_link l.
Proof.
  destruct source_info as [| | | | |ref];
    try (unfold resolve_source, bind, lift; simpl; discriminate).
  rewrite resolve_source_lookup. intros H. injection H as <- _.
  apply lookup_source_shape.
Qed.

Lemma resolve_sources_shape (raw_sources : list json) :
  forall (final_links l : list json) (s s' : state),
  Forall is_link final_links ->
  resolve_sources raw_sources final_links s = (Ok l, s') ->
  Forall is_link l.
Proof.
  induction raw_sources as [|x raw_sources IH];
    intros final_links l s s' Hacc Hl; simpl in Hl.
  - unfold ret in Hl. now injection Hl as <- _.
  - unfold bind in Hl.
    destruct (resolve_source x s) as [[streams|e] s1] eqn:Hx;
      [|discriminate].
    apply (IH _ _ _ _) in Hl; [exact Hl|].
    apply Forall_app. split; [exact Hacc|].
    exact (resolve_source_shape x s s1 streams Hx).
Qed.

Lemma kick_off_string (match_date_ms k : json) :
  kick_off match_date_ms = Ok k -> exists iso, k = JStr iso.
Proof.
  unfold kick_off. destruct (py_num match_date_ms); simpl; [|discriminate].
  destruct (fromtimestamp_isoformat a); [|discriminate].
  intros H. injection H as <-. eauto.
Qed.

Lemma process_match_shape (api_match : json) (s : state) (r : json) :
  fst (process_match api_match s) = Ok r ->
  r = JNull \/ is_match_record r.
Proof.
  unfold process_match, bind, lift, time_time_ms, ret.
  destruct (py_get api_match "date" (JNum 0)) as [match_date_ms|]; simpl;
    [|discriminate].
  destruct (time_ms (st_world s)) as [now w]. simpl.
  destruct (py_num match_date_ms) as [date|]; simpl; [|discriminate].
  destruct (now - date >? TWELVE_HOURS_MS); simpl.
  { intros H. injection H as <-. now left. }
  destruct (py_get api_match "teams" JNull) as [t|]; simpl; [|discriminate].
  destruct (py_get (py_or t (JObj [])) "home" JNull) as [h|]; simpl;
    [|discriminate].
  destruct (py_get (py_or t (JObj [])) "away" JNull) as [a|]; simpl;
    [|discriminate].
  destruct (badge_url (py_or h (JObj []))) as [home_badge|]; simpl;
    [|discriminate].
  destruct (badge_url (py_or a (JObj []))) as [away_badge|]; simpl;
    [|discriminate].
  destruct (py_get api_match "sources" JNull) as [srcs|]; simpl;
    [|discriminate].
  destruct (py_iter (py_or srcs (JList []))) as [raw_sources|]; simpl;
    [|discriminate].
  destruct (resolve_sources raw_sources [] (with_world s w))
    as [[final_links|] s1] eqn:Hlinks; simpl; [|discriminate].
  destruct (py_get api_match "id" JNull) as [id|]; simpl; [|discriminate].
  destruct (match_title api_match (py_or h (JObj [])) (py_or a (JObj [])))
    as [title|]; simpl; [|discriminate].
  destruct (py_get api_match "category" JNull) as [sport|]; simpl;
    [|discriminate].
  destruct (kick_off match_date_ms) as [kickOff|] eqn:Hk; simpl;
    [|discriminate].
  destruct (py_get (py_or h (JObj [])) "name" (JStr "Home Team"))
    as [name1|]; simpl; [|discriminate].
  destruct (py_get (py_or a (JObj [])) "name" (JStr "Away Team"))
    as [name2|]; simpl; [|discriminate].
  intros H. injection H as <-. right.
  destruct (kick_off_string _ _ Hk) as [iso ->].
  unfold is_match_record.
  exists id, title, sport, iso, name1, home_badge, name2, away_badge,
    final_links.
  split; [reflexivity|].
  exact (resolve_sources_shape raw_sources [] final_links _ _
           (Forall_nil _) Hlinks).
Qed.

(** X3: whatever it is given, [process_match] returns, when it returns,
    [None] or a record of exactly these eight fields in this order, with a
    string [kickOff], [isLive] false, two teams of a [name] and a string
    [logo], and [links] a list of records of [url], [language] and [hd];
    such a record is true and has the key the sort needs. *)
Theorem process_match_schema (api_match : json) (s : state) (r : json) :
  fst (process_match api_match s) = Ok r ->
  r = JNull \/
  (is_match_record r /\ py_truthy r = true /\ exists k, sort_key r = Ok k).
Proof.
  intros Hr.
  destruct (process_match_shape api_match s r Hr) as [-> | Hrec];
    [now left | right].
  split; [exact Hrec|].
  destruct Hrec as (id & title & sport & kickOff & n1 & l1 & n2 & l2
                    & links & -> & _).
  split; [reflexivity|]. exists kickOff. reflexivity.
Qed.

(** ** The requests a task sends *)

Lemma lookup_source_requests (ref : dict) (s : state) :
  st_requests (snd (lookup_source ref s))
  = (st_requests s ++ (if valid_ref ref then [source_url ref] else []))%list
  /\ files (snd (lookup_source ref s)) = files s.
Proof.
  unfold lookup_source. destruct (valid_ref ref).
  - destruct (http_get (source_url ref) 6 (st_world s)). simpl. auto.
  - simpl. now rewrite app_nil_r.
Qed.

(** X4: [resolve_source] makes one attempt: on a dict it sends exactly one
    request, to the URL of the ref, when [source] and [id] are both true,
    and none otherwise, whatever comes back; on anything that is not a dict
    it raises AttributeError before any request. *)
Theorem resolve_source_single_attempt (source_info : json) (s : state) :
  (forall ref, source_info = JObj ref ->
     st_requests (snd (resolve_source source_info s))
     = (st_requests s
        ++ (if valid_ref ref then [source_url ref] else []))%list) /\
  (is_obj source_info = false ->
     resolve_source source_info s = (Raise AttributeError, s)).
Proof.
  split.
  - intros ref ->. rewrite resolve_source_lookup. simpl.
    apply lookup_source_requests.
  - destruct source_info; try discriminate; reflexivity.
Qed.

Lemma links_of_requests (refs : list json) :
  forall s,
  st_requests (snd (links_of refs s)) = (st_requests s ++ urls_of refs)%list.
Proof.
  induction refs as [|ref refs IH]; intros s; simpl.
  - now rewrite app_nil_r.
  - pose proof (lookup_source_requests (fields_of ref) s) as [Hreq _].
    destruct (lookup_source (fields_of ref) s) as [streams s1].
    specialize (IH s1).
    destruct (links_of refs s1) as [more s2]. simpl in *.
    rewrite IH, Hreq, <- app_assoc. f_equal.
    unfold urls_of. simpl. destruct (valid_ref (fields_of ref)); reflexivity.
Qed.

(** A well-shaped match that passes the filter but whose date
    [fromtimestamp] rejects: the exception comes after the lookups. *)
Lemma process_match_kept_overflow (raw : dict) (d : Z) (s : state) :
  well_shaped raw = true ->
  date_of raw = Ok d ->
  fromtimestamp_isoformat d = None ->
  fst (time_ms (st_world s)) - d <= TWELVE_HOURS_MS ->
  let s0 := with_world s (snd (time_ms (st_world s))) in
  process_match (JObj raw) s
  = (Raise (fromtimestamp_error d), snd (links_of (refs_of raw) s0)).
Proof.
  unfold well_shaped, date_of. intros Hw Hd Hiso Hin.
  apply andb_prop in Hw as [Hw Hrefs].
  apply andb_prop in Hw as [Hw Haway].
  apply andb_prop in Hw as [Hteams Hhome].
  unfold process_match, bind, lift, time_time_ms, ret. simpl.
  destruct (time_ms (st_world s)) as [now w]. simpl in *.
  fold (field "date" raw (JNum 0)). rewrite Hd.
  replace (now - d >? TWELVE_HOURS_MS) with false
    by (symmetry; rewrite Z.gtb_ltb; apply Z.ltb_ge; lia).
  fold (field "teams" raw JNull). fold (teams_of raw).
  pose proof (is_obj_fields _ Hteams) as Et.
  pose proof (is_obj_fields _ Hhome) as Eh.
  pose proof (is_obj_fields _ Haway) as Ea.
  rewrite Et. simpl.
  fold (field "home" (fields_of (teams_of raw)) JNull).
  fold (field "away" (fields_of (teams_of raw)) JNull).
  fold (side "home" raw). fold (side "away" raw).
  rewrite Eh, Ea, !badge_url_logo.
  fold (field "sources" raw JNull). fold (sources_of raw).
  unfold refs_of.
  destruct (sources_of raw) as [| | | | refs |]; try discriminate Hrefs.
  simpl py_iter. cbv iota beta.
  rewrite (resolve_sources_links refs [] _ Hrefs). simpl.
  rewrite match_title_of. unfold kick_off. rewrite Hd. simpl. rewrite Hiso.
  simpl. reflexivity.
Qed.

(** X5: a well-shaped match that passes the filter, its date a number
    within the range of a float, has each of its valid sources requested
    once, in the order of [sources], and nothing else; this holds even when
    the task then raises because [fromtimestamp] rejects the date, with the
    exception [fromtimestamp] raises for it, which comes only after the
    lookups. *)
Theorem process_match_requests (raw : dict) (d : Z) (s : state) :
  well_shaped raw = true ->
  date_of raw = Ok d ->
  fst (time_ms (st_world s)) - d <= 43200000 ->
  st_requests (snd (process_match (JObj raw) s))
  = (st_requests s ++ urls_of (refs_of raw))%list /\
  (fromtimestamp_isoformat d = None ->
   fst (process_match (JObj raw) s) = Raise (fromtimestamp_error d)).
Proof.
  intros Hw Hd Hin. rewrite <- twelve_hours in Hin.
  destruct (fromtimestamp_isoformat d) as [iso|] eqn:Hiso.
  - rewrite (process_match_kept raw d iso s Hw Hd Hiso Hin). simpl.
    split; [|discriminate]. now rewrite links_of_requests.
  - rewrite (process_match_kept_overflow raw d s Hw Hd Hiso Hin). simpl.
    split; [|reflexivity]. now rewrite links_of_requests.
Qed.


(** X7: a raw match whose [date] is there but is not a number (null, a
    string, a list, an object) makes its task raise TypeError right after
    the clock is read; no request is sent. *)
Theorem date_not_a_number (raw : dict) (v : json) (s : state) :
  lookup "date" raw = Some v ->
  (forall n, v <> JNum n) -> (forall b, v <> JBool b) ->
  process_match (JObj raw) s
  = (Raise TypeError, with_world s (snd (time_ms (st_world s)))).
Proof.
  intros Hv Hn Hb.
  unfold process_match, bind, lift, time_time_ms. simpl. rewrite Hv.
  destruct (time_ms (st_world s)) as [now w]. simpl.
  destruct v; try reflexivity.
  - now destruct (Hb b).
  - now destruct (Hn n).
Qed.

(** ** Runs that stop before the gate, and what every run keeps *)

Lemma build_schedule_general (raw : json) (s : state) :
  build_schedule raw s
  = match py_len raw with
    | Raise e => (Raise e, s)
    | Ok _ =>
        match py_iter raw with
        | Raise e => (Raise e, s)
        | Ok items =>
            let (r, s') := executor_map process_match items s in
            (match r with
             | Ok results =>
                 match first_raised results with
                 | Some e => Raise e
                 | None => sort_by_kickOff (kept results)
                 end
             | Raise e => Raise e
             end, s')
        end
    end.
Proof.
  unfold build_schedule, bind, lift.
  destruct (py_len raw); [|reflexivity].
  destruct (py_iter raw) as [items|]; [|reflexivity].
  destruct (executor_map process_match items s) as [[results|e] s'];
    [|reflexivity].
  rewrite collect_results_kept. simpl.
  destruct (first_raised results); [reflexivity|].
  destruct (sort_by_kickOff (kept results)); reflexivity.
Qed.

Lemma main_raises (s s0 s1 : state) (raw : json) (e : exn) :
  fetch_matches s = (Ok raw, s0) ->
  py_truthy raw = true ->
  build_schedule raw s0 = (Raise e, s1) ->
  main s = (Raise e, s1) /\ files s1 = files s.
Proof.
  intros Hf Ht Hb. split.
  - unfold main, bind. rewrite Hf, Ht. simpl. now rewrite Hb.
  - pose proof (frames_fetch_matches s) as H0. rewrite Hf in H0.
    pose proof (frames_build_schedule raw s0) as H1. rewrite Hb in H1.
    simpl in *. congruence.
Qed.

(** X8: when a task of the pool raises, the run raises the exception of the
    first such task in submission order and stops before the gate: the
    snapshot and the log are as they were. *)
Theorem raising_task_aborts_run (s s0 s1 : state) (raws : list json)
  (results : list (result json)) (e : exn) :
  fetch_matches s = (Ok (JList raws), s0) ->
  executor_map process_match raws s0 = (Ok results, s1) ->
  first_raised results = Some e ->
  fst (main s) = Raise e /\
  st_output (snd (main s)) = st_output s /\
  st_log (snd (main s)) = st_log s.
Proof.
  intros Hf Hrun Hfirst.
  assert (Ht : py_truthy (JList raws) = true).
  { destruct raws; [|reflexivity].
    simpl in Hrun. unfold ret in Hrun. injection Hrun as <- _.
    discriminate Hfirst. }
  assert (Hb : build_schedule (JList raws) s0 = (Raise e, s1)).
  { rewrite build_schedule_run, Hrun, Hfirst. reflexivity. }
  destruct (main_raises s s0 s1 (JList raws) e Hf Ht Hb) as [Hmain Hfiles].
  rewrite Hmain. simpl. unfold files in Hfiles.
  split; [reflexivity|]. split; congruence.
Qed.

Lemma process_match_non_object (m : json) (s : state) :
  is_obj m = false -> process_match m s = (Raise AttributeError, s).
Proof. destruct m; try discriminate; reflexivity. Qed.

Lemma executor_map_non_objects (items : list json) (s : state) :
  Forall (fun m => is_obj m = false) items ->
  executor_map process_match items s
  = (Ok (map (fun _ => Raise AttributeError) items), s).
Proof.
  induction 1 as [|m items Hm _ IH]; simpl; [reflexivity|].
  rewrite (process_match_non_object m s Hm), IH. reflexivity.
Qed.

(** X9: a match list that is true but not an array makes the run raise
    right after the fetch, with nothing requested further and nothing
    written: TypeError for a number or [true] (it has no [len]),
    AttributeError for a non-empty object or string (its keys or characters
    are not dicts). *)
Theorem non_array_body_aborts (s s0 : state) (raw : json) :
  fetch_matches s = (Ok raw, s0) ->
  py_truthy raw = true ->
  (forall l, raw <> JList l) ->
  main s = (Raise (match raw with
                   | JNum _ | JBool _ => TypeError
                   | _ => AttributeError
                   end), s0) /\
  st_output s0 = st_output s /\ st_log s0 = st_log s.
Proof.
  intros Hf Ht Hnl.
  assert (Hb : build_schedule raw s0
               = (Raise (match raw with
                         | JNum _ | JBool _ => TypeError
                         | _ => AttributeError
                         end), s0)).
  { rewrite build_schedule_general.
    destruct raw as [| b | n | str | l | fields]; try discriminate Ht;
      try reflexivity.
    - destruct str as [|c str]; [discriminate Ht|].
      cbn [py_len py_iter].
      rewrite executor_map_non_objects; [reflexivity|].
      apply Forall_forall. intros x Hx.
      apply in_map_iff in Hx as (c' & <- & _). reflexivity.
    - now destruct (Hnl l).
    - destruct fields as [|[k v] fields]; [discriminate Ht|].
      cbn [py_len py_iter].
      rewrite executor_map_non_objects; [reflexivity|].
      apply Forall_forall. intros x Hx.
      apply in_map_iff in Hx as (kv & <- & _). reflexivity. }
  destruct (main_raises s s0 s0 raw _ Hf Ht Hb) as [Hmain Hfiles].
  unfold files in Hfiles. split; [exact Hmain|]. split; congruence.
Qed.

(** X10: the fetch of the match list accepts every status outside 400-599,
    not only 200, and returns the parsed body as it is, array or not; it
    sends exactly one request. *)
Theorem fetch_matches_returns_body (s : state) (code : Z) (text : string)
  (v : json) :
  fst (http_get API_URL 15 (st_world s)) = Response code text ->
  code < 400 \/ 600 <= code ->
  json_loads text = Some v ->
  fst (fetch_matches s) = Ok v /\
  st_requests (snd (fetch_matches s)) = (st_requests s ++ [API_URL])%list.
Proof.
  intros Hr Hc Hp. rewrite fetch_matches_run.
  destruct (http_get API_URL 15 (st_world s)) as [o w]. simpl in *.
  subst o. rewrite Hp.
  replace ((400 <=? code) && (code <? 600)) with false; [auto|].
  symmetry. apply andb_false_iff.
  destruct Hc; [left; apply Z.leb_gt | right; apply Z.ltb_ge]; lia.
Qed.

Lemma kept_in (results : list (result json)) (v : json) :
  In v (kept results) -> In (Ok v) results /\ py_truthy v = true.
Proof.
  unfold kept. intros Hin.
  apply in_flat_map in Hin as ([v'|e] & Hr & Hv); [|destruct Hv].
  destruct (py_truthy v') eqn:Ht; [|destruct Hv].
  destruct Hv as [<- | []]. auto.
Qed.

Lemma kept_records (items : list json) (s s' : state)
  (results : list (result json)) :
  executor_map process_match items s = (Ok results, s') ->
  Forall is_match_record (kept results).
Proof.
  intros Hrun. apply Forall_forall. intros v Hv.
  apply kept_in in Hv as [Hin Ht].
  destruct (executor_map_from items s results s' Hrun (Ok v) Hin)
    as (m & s1 & _ & Hr).
  symmetry in Hr.
  destruct (process_match_shape m s1 v Hr) as [-> | Hrec];
    [discriminate Ht | exact Hrec].
Qed.

Lemma build_schedule_records (raw : json) (s s' : state)
  (schedule : list json) :
  build_schedule raw s = (Ok schedule, s') ->
  StronglySorted kickOff_le schedule /\ Forall is_match_record schedule.
Proof.
  rewrite build_schedule_general.
  destruct (py_len raw); [|discriminate].
  destruct (py_iter raw) as [items|]; [|discriminate].
  destruct (executor_map process_match items s) as [[results|e] s1] eqn:Hrun;
    [|discriminate].
  destruct (first_raised results); [discriminate|].
  intros H. injection H as Hsort <-.
  split; [exact (sort_by_kickOff_sorted _ _ Hsort)|].
  pose proof (kept_records items s s1 results Hrun) as Hrec.
  apply Forall_forall. intros x Hx. rewrite Forall_forall in Hrec.
  apply Hrec. exact (Permutation_in _ (sort_by_kickOff_perm _ _ Hsort) Hx).
Qed.

(** X11: whatever a run meets, it leaves the snapshot and the log as they
    were, or it ends normally having replaced the snapshot by the
    serialization of a schedule of well-formed match records in ascending
    [kickOff] order and appended exactly one entry to the log, which tells
    the number of matches and the hash of that schedule; the entries the
    log had stay. *)
Theorem main_writes_only_through_gate (s : state) :
  (st_output (snd (main s)) = st_output s /\
   st_log (snd (main s)) = st_log s) \/
  exists schedule timestamp,
    fst (main s) = Ok tt /\
    StronglySorted kickOff_le schedule /\
    Forall is_match_record schedule /\
    st_output (snd (main s)) = Some (json_dump_indent2 (JList schedule)) /\
    st_log (snd (main s))
    = (st_log s
       ++ [log_entry timestamp (Z.of_nat (List.length schedule))
             (generate_hash (JList schedule))])%list.
Proof.
  pose proof (frames_fetch_matches s) as Hff.
  destruct (fetch_matches s) as [[raw|e] s0] eqn:Hf; simpl in Hff.
  - destruct (py_truthy raw) eqn:Ht.
    + pose proof (frames_build_schedule raw s0) as Hfb.
      destruct (build_schedule raw s0) as [[schedule|e] s1] eqn:Hb;
        simpl in Hfb.
      * destruct (main_gate s s0 s1 raw schedule Hf Ht Hb) as [Hmain Hfiles].
        rewrite Hmain.
        destruct (shouldPersist (JList schedule) (oldSchedule s)).
        -- right.
           destruct (build_schedule_records raw s0 s1 schedule Hb)
             as [Hsorted Hrec].
           unfold persisted.
           destruct (now_strftime (st_world s1)) as [timestamp w].
           exists schedule, timestamp. simpl.
           unfold files in Hfiles.
           replace (st_log s1) with (st_log s) by congruence.
           auto.
        -- left. simpl. unfold files in Hfiles. split; congruence.
      * destruct (main_raises s s0 s1 raw e Hf Ht Hb) as [Hmain Hfiles].
        left. rewrite Hmain. simpl. unfold files in Hfiles.
        split; congruence.
    + left. unfold main, bind. rewrite Hf, Ht. simpl.
      unfold files in Hff. split; congruence.
  - left. unfold main, bind. rewrite Hf. simpl.
    unfold files in Hff. split; congruence.
Qed.

(** X12: two runs in a row: when the first reached the gate with a
    schedule and the second, started in the state the first left, builds
    the same schedule, the second writes nothing, provided the JSON library
    reads that schedule back from what it wrote. *)
Theorem rerun_writes_nothing (s s0 s1 t0 t1 : state) (raw raw' : json)
  (schedule : list json) :
  fetch_matches s = (Ok raw, s0) ->
  py_truthy raw = true ->
  build_schedule raw s0 = (Ok schedule, s1) ->
  fetch_matches (snd (main s)) = (Ok raw', t0) ->
  py_truthy raw' = true ->
  build_schedule raw' t0 = (Ok schedule, t1) ->
  json_loads (json_dump_indent2 (JList schedule)) = Some (JList schedule) ->
  main (snd (main s)) = (Ok tt, t1) /\
  st_output t1 = st_output (snd (main s)) /\
  st_log t1 = st_log (snd (main s)).
Proof.
  intros Hf Ht Hb Hf' Ht' Hb' Hround.
  destruct (main_gate s s0 s1 raw schedule Hf Ht Hb) as [Hmain Hfiles].
  destruct (main_gate (snd (main s)) t0 t1 raw' schedule Hf' Ht' Hb')
    as [Hmain' Hfiles'].
  assert (Hsame : shouldPersist (JList schedule) (oldSchedule (snd (main s)))
                  = false).
  { rewrite Hmain.
    destruct (shouldPersist (JList schedule) (oldSchedule s)) eqn:Hp; simpl.
    - unfold persisted. destruct (now_strftime (st_world s1)).
      unfold oldSchedule. simpl. rewrite Hround.
      apply shouldPersist_same.
    - rewrite (oldSchedule_files s s1 Hfiles). exact Hp. }
  rewrite Hsame in Hmain'.
  unfold files in Hfiles'.
  split; [exact Hmain'|]. split; congruence.
Qed.

(** ** Teams and title *)

(** X13: the logo of a team is the badge URL, base and badge and ".webp",
    when the team has a [badge] that is a non-empty string, and the empty
    string when the badge is absent, null or empty. *)
Theorem team_logos (raw : dict) (d : Z) (iso : string) (s : state) :
  well_shaped raw = true ->
  date_of raw = Ok d ->
  fromtimestamp_isoformat d = Some iso ->
  fst (time_ms (st_world s)) - d <= 43200000 ->
  exists nm,
    fst (process_match (JObj raw) s) = Ok nm /\
    (forall b,
       lookup "badge" (fields_of (side "home" raw)) = Some (JStr b) ->
       b <> EmptyString ->
       at_key "logo" (at_key "team1" nm)
       = JStr ("https://streamed.pk/api/images/badge/" ++ b ++ ".webp")) /\
    (forall b,
       lookup "badge" (fields_of (side "away" raw)) = Some (JStr b) ->
       b <> EmptyString ->
       at_key "logo" (at_key "team2" nm)
       = JStr ("https://streamed.pk/api/images/badge/" ++ b ++ ".webp")) /\
    (py_truthy (field "badge" (fields_of (side "home" raw)) JNull) = false ->
     at_key "logo" (at_key "team1" nm) = JStr EmptyString) /\
    (py_truthy (field "badge" (fields_of (side "away" raw)) JNull) = false ->
     at_key "logo" (at_key "team2" nm) = JStr EmptyString).
Proof.
  intros Hw Hd Hiso Hin. rewrite <- twelve_hours in Hin.
  rewrite (process_match_kept raw d iso s Hw Hd Hiso Hin).
  eexists. split; [reflexivity|].
  unfold normalized, at_key, logo. simpl.
  repeat split.
  - intros b Hb Hne. unfold field. rewrite Hb. simpl.
    apply String.eqb_neq in Hne. now rewrite Hne.
  - intros b Hb Hne. unfold field. rewrite Hb. simpl.
    apply String.eqb_neq in Hne. now rewrite Hne.
  - now intros ->.
  - now intros ->.
Qed.

(** X14: a title that is there and true is kept as it is; a name that is
    there is kept as it is, null included.  Without a title, the title is
    made of the two names when they are strings; a name that is null gives
    the team the name null and the title the word "None". *)
Theorem title_and_names (raw : dict) (d : Z) (iso : string) (s : state) :
  well_shaped raw = true ->
  date_of raw = Ok d ->
  fromtimestamp_isoformat d = Some iso ->
  fst (time_ms (st_world s)) - d <= 43200000 ->
  exists nm,
    fst (process_match (JObj raw) s) = Ok nm /\
    (py_truthy (field "title" raw JNull) = true ->
     at_key "title" nm = field "title" raw JNull) /\
    (forall v, lookup "name" (fields_of (side "home" raw)) = Some v ->
               at_key "name" (at_key "team1" nm) = v) /\
    (forall v, lookup "name" (fields_of (side "away" raw)) = Some v ->
               at_key "name" (at_key "team2" nm) = v) /\
    (py_truthy (field "title" raw JNull) = false ->
     forall h a,
       lookup "name" (fields_of (side "home" raw)) = Some (JStr h) ->
       lookup "name" (fields_of (side "away" raw)) = Some (JStr a) ->
       at_key "title" nm = JStr (h ++ " vs " ++ a)) /\
    (py_truthy (field "title" raw JNull) = false ->
     lookup "name" (fields_of (side "home" raw)) = Some JNull ->
     lookup "name" (fields_of (side "away" raw)) = None ->
     at_key "title" nm = JStr "None vs Away" /\
     at_key "name" (at_key "team1" nm) = JNull /\
     at_key "name" (at_key "team2" nm) = JStr "Away Team").
Proof.
  intros Hw Hd Hiso Hin. rewrite <- twelve_hours in Hin.
  rewrite (process_match_kept raw d iso s Hw Hd Hiso Hin).
  eexists. split; [reflexivity|].
  unfold normalized, at_key, title_of. simpl.
  split; [|split; [|split; [|split]]].
  - now intros ->.
  - intros v Hv. unfold field. now rewrite Hv.
  - intros v Hv. unfold field. now rewrite Hv.
  - intros Ht h a Hh Ha. rewrite Ht. unfold field. now rewrite Hh, Ha.
  - intros Ht Hh Ha. rewrite Ht. unfold field. now rewrite Hh, Ha.
Qed.

(** ** generate_m3u *)

Lemma fetch_channels_run (s : state) :
  fetch_channels s
  = let (o, w) := http_get m3u_api_url 30 (st_world s) in
    (match o with
     | Failed => Raise RequestException
     | Response code text =>
         if (400 <=? code) && (code <? 600) then Raise HTTPError
         else
           match json_loads text with
           | None => Raise JSONDecodeError
           | Some (JObj data) =>
               if py_truthy (field "success" data JNull) then
                 match py_len (field "channels" data (JList [])) with
                 | Ok _ => Ok (Some (field "channels" data (JList [])))
                 | Raise e => Raise e
                 end
               else Ok None
           | Some _ => Raise AttributeError
           end
     end, sent s m3u_api_url w).
Proof.
  unfold fetch_channels, bind, requests_get, lift, ret, sent.
  destruct (http_get m3u_api_url 30 (st_world s)) as [[|code text] w];
    [reflexivity|].
  unfold raise_for_status, response_json. simpl.
  destruct ((400 <=? code) && (code <? 600)); [reflexivity|].
  destruct (json_loads text) as [data|]; [|reflexivity].
  destruct data as [| | | | |data]; try reflexivity.
  simpl. fold (field "success" data JNull).
  destruct (py_truthy (field "success" data JNull)); [|reflexivity].
  simpl. fold (field "channels" data (JList [])).
  destruct (py_len (field "channels" data (JList []))); reflexivity.
Qed.

Lemma write_channels_written (channels : list json) :
  forall f,
  write_channels channels f
  = (match first_channel_error channels with
     | Some e => Raise e
     | None => Ok tt
     end,
     f ++ String.concat EmptyString
            (map channel_entry (written_channels channels))).
Proof.
  assert (Hnil : forall f : string, f ++ EmptyString = f)
    by (induction f; simpl; congruence).
  assert (Hassoc : forall a b c : string, (a ++ b) ++ c = a ++ (b ++ c))
    by (induction a; intros; simpl; congruence).
  assert (Hhead : forall (x : string) (l : list string),
             String.concat EmptyString (x :: l)
             = x ++ String.concat EmptyString l).
  { intros x [|y l]; simpl; [now rewrite Hnil | reflexivity]. }
  induction channels as [|c channels IH]; intros f.
  - simpl. now rewrite Hnil.
  - cbn [write_channels written_channels first_channel_error].
    destruct (channel_lines c) as [[extinf stream_url]|e] eqn:Hc.
    + rewrite IH. cbn [map]. rewrite Hhead.
      replace (channel_entry c)
        with ((extinf ++ newline) ++ (stream_url ++ newline))
        by (unfold channel_entry; now rewrite Hc).
      now rewrite !Hassoc.
    + simpl. now rewrite Hnil.
Qed.

Lemma generate_m3u_answer (s : state) (playlist : option string)
  (data : dict) :
  channels_answer s data ->
  generate_m3u s playlist
  = if py_truthy (field "success" data JNull) then
      match py_len (field "channels" data (JList [])) with
      | Raise _ => (Exited 1, after_channels_request s, playlist)
      | Ok _ =>
          match py_iter (field "channels" data (JList [])) with
          | Raise _ => (Exited 1, after_channels_request s, Some m3u_header)
          | Ok items =>
              (match first_channel_error items with
               | Some _ => Exited 1
               | None => Returned
               end,
               after_channels_request s,
               Some (m3u_header
                     ++ String.concat EmptyString
                          (map channel_entry (written_channels items))))
          end
      end
    else (Returned, after_channels_request s, playlist).
Proof.
  intros (code & text & Hr & Hc & Hp).
  unfold generate_m3u, after_channels_request.
  rewrite fetch_channels_run.
  destruct (http_get m3u_api_url 30 (st_world s)) as [o w]. simpl in *.
  subst o. rewrite Hp.
  replace ((400 <=? code) && (code <? 600)) with false
    by (symmetry; apply andb_false_iff;
        destruct Hc; [left; apply Z.leb_gt | right; apply Z.ltb_ge]; lia).
  destruct (py_truthy (field "success" data JNull)); [|reflexivity].
  destruct (py_len (field "channels" data (JList []))); [|reflexivity].
  destruct (py_iter (field "channels" data (JList []))) as [items|];
    [|reflexivity].
  rewrite write_channels_written.
  destruct (first_channel_error items); reflexivity.
Qed.

(** X15: when the fetch of the channel list fails (the request raises, the
    status is an error status, the body does not parse or is not an
    object), the script leaves through [exit(1)] and the playlist is as it
    was, there or not. *)
Theorem playlist_fetch_failure (s : state) (playlist : option string) :
  channels_fetch_fails s ->
  generate_m3u s playlist = (Exited 1, after_channels_request s, playlist).
Proof.
  unfold generate_m3u, after_channels_request.
  rewrite fetch_channels_run.
  intros [Hr | code text Hr Hc | code text Hr Hp | code text data Hr Hp Ho];
    destruct (http_get m3u_api_url 30 (st_world s)) as [o w];
    simpl in *; subst o; try reflexivity.
  - replace ((400 <=? code) && (code <? 600)) with true; [reflexivity|].
    symmetry. apply andb_true_intro.
    split; [apply Z.leb_le | apply Z.ltb_lt]; lia.
  - rewrite Hp. now destruct (_ && _).
  - rewrite Hp. destruct (_ && _); [reflexivity|].
    destruct data; try reflexivity. discriminate Ho.
Qed.

(** X16: when the API answers with an object whose [success] is absent or
    false, the script returns normally without opening the playlist; when
    [channels] is there but has no length (null, a number, a boolean), it
    leaves through [exit(1)], again before the playlist is opened. *)
Theorem playlist_not_opened (s : state) (playlist : option string)
  (data : dict) :
  channels_answer s data ->
  (py_truthy (field "success" data JNull) = false ->
   generate_m3u s playlist = (Returned, after_channels_request s, playlist)) /\
  (py_truthy (field "success" data JNull) = true ->
   forall e, py_len (field "channels" data (JList [])) = Raise e ->
   generate_m3u s playlist = (Exited 1, after_channels_request s, playlist)).
Proof.
  intros Ha. rewrite (generate_m3u_answer s playlist data Ha). split.
  - now intros ->.
  - intros -> e ->. reflexivity.
Qed.

Lemma written_all (channels : list json) :
  first_channel_error channels = None ->
  written_channels channels = channels.
Proof.
  induction channels as [|c channels IH]; simpl; [reflexivity|].
  destruct (channel_lines c); [|discriminate].
  intros H. now rewrite IH.
Qed.

Lemma written_prefix (good rest : list json) (bad : json) (e : exn) :
  first_channel_error good = None ->
  channel_lines bad = Raise e ->
  written_channels (good ++ bad :: rest) = good /\
  first_channel_error (good ++ bad :: rest) = Some e.
Proof.
  intros Hgood Hbad.
  induction good as [|c good IH]; simpl in *.
  - now rewrite Hbad.
  - destruct (channel_lines c); [|discriminate].
    destruct (IH Hgood) as [-> ->]. auto.
Qed.

(** X17: when the API answers success and a list of channels (none when
    [channels] is absent) that can all be processed and whose lines are
    plain ASCII, the script returns normally and the playlist is, whatever
    it was, the header followed by the two lines of each channel in the
    order of the list. *)
Theorem playlist_written (s : state) (playlist : option string)
  (data : dict) (channels : list json) :
  channels_answer s data ->
  py_truthy (field "success" data JNull) = true ->
  field "channels" data (JList []) = JList channels ->
  first_channel_error channels = None ->
  Forall (fun c => ascii_only (channel_entry c) = true) channels ->
  generate_m3u s playlist
  = (Returned, after_channels_request s,
     Some (m3u_header
           ++ String.concat EmptyString (map channel_entry channels))) /\
  (lookup "channels" data = None ->
   generate_m3u s playlist
   = (Returned, after_channels_request s, Some m3u_header)).
Proof.
  intros Ha Hs Hch Hall _.
  rewrite (generate_m3u_answer s playlist data Ha), Hs, Hch. simpl.
  rewrite Hall, (written_all channels Hall).
  split; [reflexivity|].
  intros Hnone. unfold field in Hch. rewrite Hnone in Hch.
  injection Hch as <-. reflexivity.
Qed.

(** X18: a channel whose processing raises before its lines are written
    stops the script half-way: it leaves through [exit(1)], and the
    playlist, whatever it was, is the header and the lines of the channels
    before that one, their lines being plain ASCII; the channels after it
    are not written. *)
Theorem playlist_cut_short (s : state) (playlist : option string)
  (data : dict) (good rest : list json) (bad : json) (e : exn) :
  channels_answer s data ->
  py_truthy (field "success" data JNull) = true ->
  field "channels" data (JList []) = JList (good ++ bad :: rest) ->
  first_channel_error good = None ->
  Forall (fun c => ascii_only (channel_entry c) = true) good ->
  channel_lines bad = Raise e ->
  generate_m3u s playlist
  = (Exited 1, after_channels_request s,
     Some (m3u_header ++ String.concat EmptyString (map channel_entry good))).
Proof.
  intros Ha Hs Hch Hgood _ Hbad.
  rewrite (generate_m3u_answer s playlist data Ha), Hs, Hch. simpl.
  destruct (written_prefix good rest bad e Hgood Hbad) as [-> ->].
  reflexivity.
Qed.

Lemma first_url_found (c : dict) :
  exists v,
    first_url (JObj c) = Ok v /\
    py_format (if negb (py_truthy v) then JStr "# No URL found in JSON" else v)
    = stream_url_of c.
Proof.
  unfold first_url, stream_url_of. simpl.
  fold (field "url" c JNull). fold (field "stream" c JNull).
  fold (field "source" c JNull). fold (field "website" c JNull).
  destruct (py_truthy (field "url" c JNull)) eqn:H1.
  { eexists. split; [reflexivity|]. now rewrite H1. }
  destruct (py_truthy (field "stream" c JNull)) eqn:H2.
  { eexists. split; [reflexivity|]. now rewrite H2. }
  destruct (py_truthy (field "source" c JNull)) eqn:H3.
  { eexists. split; [reflexivity|]. now rewrite H3. }
  eexists. split; [reflexivity|].
  destruct (py_truthy (field "website" c JNull)); reflexivity.
Qed.

Lemma channel_lines_object (c : dict) :
  channel_lines (JObj c)
  = match group_title_of (field "categories" c (JList [])) with
    | Ok g =>
        Ok (extinf_line (field "id" c (JStr EmptyString))
              (field "name" c (JStr "Unknown Channel"))
              (field "country" c (JStr EmptyString)) g,
            stream_url_of c)
    | Raise e => Raise e
    end.
Proof.
  unfold channel_lines. simpl.
  fold (field "id" c (JStr EmptyString)).
  fold (field "name" c (JStr "Unknown Channel")).
  fold (field "country" c (JStr EmptyString)).
  fold (field "categories" c (JList [])).
  destruct (group_title_of (field "categories" c (JList []))) as [g|e];
    [|reflexivity].
  simpl. destruct (first_url_found c) as (v & -> & <-). reflexivity.
Qed.

Lemma all_str_strings (names : list string) :
  all_str (map JStr names) = Ok names.
Proof.
  induction names as [|n names IH]; simpl; [reflexivity|].
  now rewrite IH.
Qed.

(** X19: the two lines of a channel: the [#EXTINF] line carries [id]
    (empty when absent), [name] ("Unknown Channel" when absent), [country]
    (empty when absent) and the group title, which is "Uncategorized" when
    [categories] is absent or empty and the categories joined by ";" when
    it is a list of strings; the URL line is the first of [url], [stream],
    [source], [website] that is true, and "# No URL found in JSON" when
    none is. *)
Theorem channel_lines_content (c : dict) :
  (py_truthy (field "categories" c (JList [])) = false ->
   channel_lines (JObj c)
   = Ok (extinf_line (field "id" c (JStr EmptyString))
           (field "name" c (JStr "Unknown Channel"))
           (field "country" c (JStr EmptyString)) "Uncategorized",
         stream_url_of c)) /\
  (forall names,
     names <> [] ->
     field "categories" c (JList []) = JList (map JStr names) ->
     channel_lines (JObj c)
     = Ok (extinf_line (field "id" c (JStr EmptyString))
             (field "name" c (JStr "Unknown Channel"))
             (field "country" c (JStr EmptyString))
             (String.concat ";" names),
           stream_url_of c)) /\
  (py_truthy (field "url" c JNull) = true ->
   stream_url_of c = py_format (field "url" c JNull)) /\
  (py_truthy (field "url" c JNull) = false ->
   py_truthy (field "stream" c JNull) = true ->
   stream_url_of c = py_format (field "stream" c JNull)) /\
  (py_truthy (field "url" c JNull) = false ->
   py_truthy (field "stream" c JNull) = false ->
   py_truthy (field "source" c JNull) = true ->
   stream_url_of c = py_format (field "source" c JNull)) /\
  (py_truthy (field "url" c JNull) = false ->
   py_truthy (field "stream" c JNull) = false ->
   py_truthy (field "source" c JNull) = false ->
   stream_url_of c
   = if py_truthy (field "website" c JNull)
     then py_format (field "website" c JNull)
     else "# No URL found in JSON").
Proof.
  split; [|split; [|split; [|split; [|split]]]].
  - intros Hc. rewrite channel_lines_object.
    unfold group_title_of. now rewrite Hc.
  - intros names Hne Hc. rewrite channel_lines_object, Hc.
    unfold group_title_of, py_join.
    destruct names as [|n names]; [contradiction|].
    cbn [map py_truthy py_iter rbind].
    change (JStr n :: map JStr names) with (map JStr (n :: names)).
    now rewrite all_str_strings.
  - intros H1. unfold stream_url_of. simpl. now rewrite H1.
  - intros H1 H2. unfold stream_url_of. simpl. now rewrite H1, H2.
  - intros H1 H2 H3. unfold stream_url_of. simpl. now rewrite H1, H2, H3.
  - intros H1 H2 H3. unfold stream_url_of. simpl. rewrite H1, H2, H3.
    destruct (py_truthy (field "website" c JNull)); reflexivity.
Qed.

(** X20: when the body of the loop raises before its two writes (lines
    28 to 52): on a channel that is not an object, with AttributeError; on
    an object exactly when its [categories] is true and cannot be joined,
    as a list with an item that is not a string, a number or [true] (all
    TypeError).  What the two writes themselves do is not part of this. *)
Theorem channel_lines_raises (channel : json) :
  (is_obj channel = false -> channel_lines channel = Raise AttributeError) /\
  (forall c e,
     channel = JObj c ->
     (channel_lines channel = Raise e <->
      py_truthy (field "categories" c (JList [])) = true /\
      py_join ";" (field "categories" c (JList [])) = Raise e)) /\
  (forall before item after,
     (forall str, item <> JStr str) ->
     py_join ";" (JList (map JStr before ++ item :: after)) = Raise TypeError) /\
  (forall n, py_join ";" (JNum n) = Raise TypeError) /\
  (forall b, py_join ";" (JBool b) = Raise TypeError).
Proof.
  split; [|split; [|split; [|split]]].
  - destruct channel; try discriminate; reflexivity.
  - intros c e ->. rewrite channel_lines_object. unfold group_title_of.
    destruct (py_truthy (field "categories" c (JList []))).
    + destruct (py_join ";" (field "categories" c (JList []))); split.
      * discriminate.
      * intros [_ H]. discriminate H.
      * intros H. injection H as ->. auto.
      * intros [_ H]. injection H as ->. reflexivity.
    + split; [discriminate | intros [H _]; discriminate H].
  - intros before item after Hitem. unfold py_join. simpl.
    induction before as [|n before IH]; simpl.
    + destruct item; try reflexivity. now destruct (Hitem s).
    + destruct (all_str (map JStr before ++ item :: after)) as [l|e];
        simpl in *; [discriminate IH | congruence].
  - reflexivity.
  - reflexivity.
Qed.

(** X21: whatever happens, the script sends exactly one request, to the
    channel API, and touches neither the snapshot nor the log of the other
    script; it returns or leaves with code 1; and the playlist is as it was
    or begins with the header. *)
Theorem generate_m3u_effects (s : state) (playlist : option string) :
  snd (fst (generate_m3u s playlist)) = after_channels_request s /\
  st_requests (snd (fst (generate_m3u s playlist)))
  = (st_requests s ++ [m3u_api_url])%list /\
  files (snd (fst (generate_m3u s playlist))) = files s /\
  (fst (fst (generate_m3u s playlist)) = Returned \/
   fst (fst (generate_m3u s playlist)) = Exited 1) /\
  (snd (generate_m3u s playlist) = playlist \/
   exists body, snd (generate_m3u s playlist) = Some (m3u_header ++ body)).
Proof.
  assert (Hstate : snd (fst (generate_m3u s playlist))
                   = after_channels_request s /\
                   (fst (fst (generate_m3u s playlist)) = Returned \/
                    fst (fst (generate_m3u s playlist)) = Exited 1) /\
                   (snd (generate_m3u s playlist) = playlist \/
                    exists body,
                      snd (generate_m3u s playlist)
                      = Some (m3u_header ++ body))).
  { unfold generate_m3u, after_channels_request.
    rewrite fetch_channels_run.
    destruct (http_get m3u_api_url 30 (st_world s)) as [o w]. simpl.
    destruct o as [|code text]; [simpl; auto|].
    destruct ((400 <=? code) && (code <? 600)); [simpl; auto|].
    destruct (json_loads text) as [[| | | | |data]|]; simpl; auto.
    destruct (py_truthy (field "success" data JNull)); [|simpl; auto].
    destruct (py_len (field "channels" data (JList []))); [|simpl; auto].
    destruct (py_iter (field "channels" data (JList []))) as [items|].
    2: { simpl. split; [reflexivity|]. split; [now right|].
         right. now exists EmptyString. }
    rewrite write_channels_written.
    destruct (first_channel_error items); simpl;
      (split; [reflexivity|]; split; [auto|]; right; eexists; reflexivity). }
  destruct Hstate as (Hs & Hexit & Hp).
  rewrite Hs. unfold after_channels_request, sent, files. simpl. auto.
Qed.

(** X22: a [date] that is a number too large for a float makes the task
    raise OverflowError at the subtraction of line 70, whatever the clock
    reads and before anything is requested. *)
Theorem date_beyond_float_range (raw : dict) (n : Z) (s : state) :
  lookup "date" raw = Some (JNum n) ->
  fits_float n = false ->
  fst (process_match (JObj raw) s) = Raise OverflowError /\
  st_requests (snd (process_match (JObj raw) s)) = st_requests s.
Proof.
  intros Hd Hfit.
  unfold process_match, bind, lift, time_time_ms. simpl.
  rewrite Hd. destruct (time_ms (st_world s)) as [now w]. simpl.
  rewrite Hfit. split; reflexivity.
Qed.

End Further.

(** * More runs on the sample hosts *)

Module FurtherRuns.

Import Demo.

#[local] Existing Instance sample_host.

(** X1, on the sample host: the earliest match comes first, the stale one is
    gone, and the three that start together follow. *)
Lemma schedule_sorted_kept_witness :
  exists early fresh b a,
    fst (build_schedule (JList mixed) idle)
    = Ok [JObj early; JObj fresh; JObj b; JObj a] /\
    StronglySorted kickOff_le [JObj early; JObj fresh; JObj b; JObj a] /\
    exists results,
      first_raised results = None /\
      Permutation [JObj early; JObj fresh; JObj b; JObj a] (kept results).
Proof.
  do 4 eexists. split; [vm_compute; reflexivity|].
  destruct (schedule_sorted_kept mixed idle
              (snd (build_schedule (JList mixed) idle)) _ eq_refl)
    as (results & _ & Hnone & Hperm & Hsorted & _).
  split; [exact Hsorted|]. exists results. auto.
Defined.

(** X2, on the sample host: the three matches with the same [kickOff] come
    out in the order they went in: m1, b, a. *)
Lemma schedule_sort_stable_witness :
  map (at_key "id")
    (filter (has_kickOff "2023-11-14T21:13:20")
       (match fst (build_schedule (JList mixed) idle) with
        | Ok schedule => schedule
        | Raise _ => []
        end))
  = [JStr "m1"; JStr "b"; JStr "a"] /\
  filter (has_kickOff "2023-11-14T21:13:20")
    (match fst (build_schedule (JList mixed) idle) with
     | Ok schedule => schedule
     | Raise _ => []
     end)
  = filter (has_kickOff "2023-11-14T21:13:20")
      (kept (match fst (executor_map process_match mixed idle) with
             | Ok results => results
             | Raise _ => []
             end)).
Proof.
  split; [reflexivity|].
  exact (schedule_sort_stable mixed idle
           (snd (build_schedule (JList mixed) idle)) _ _
           "2023-11-14T21:13:20" eq_refl eq_refl).
Defined.

(** X3, on the sample host: the record of the fresh match. *)
Lemma process_match_schema_witness :
  is_match_record fresh_normalized /\
  sort_key fresh_normalized = Ok "2023-11-14T21:13:20".
Proof.
  destruct (process_match_schema (JObj fresh_match) idle fresh_normalized
              eq_refl) as [Hnull | (Hrec & _ & k & Hk)];
    [discriminate Hnull|].
  split; [exact Hrec | reflexivity].
Defined.

(** X4, on the sample host: one request for a valid ref, even when the
    server fails; none for a ref without [id]; an exception for a string. *)
Lemma resolve_source_single_attempt_witness :
  st_requests (snd (resolve_source (ref "charlie" "3") idle))
  = ["https://streamed.pk/api/stream/charlie/3"] /\
  st_requests (snd (resolve_source (JObj [("source", JStr "alpha")]) idle))
  = [] /\
  resolve_source (JStr "alpha/1") idle = (Raise AttributeError, idle).
Proof.
  refine (conj _ (conj _ _)).
  - exact (proj1 (resolve_source_single_attempt (ref "charlie" "3") idle)
             _ eq_refl).
  - exact (proj1 (resolve_source_single_attempt
                    (JObj [("source", JStr "alpha")]) idle) _ eq_refl).
  - exact (proj2 (resolve_source_single_attempt (JStr "alpha/1") idle)
             eq_refl).
Defined.

(** X5, on the sample host: the far match has three sources, one without
    [id]; the two others are requested, in order, and then the date is
    rejected, its year out of range. *)
Lemma process_match_requests_witness :
  st_requests (snd (process_match (JObj far_match) idle))
  = ["https://streamed.pk/api/stream/alpha/1";
     "https://streamed.pk/api/stream/bravo/2"] /\
  fst (process_match (JObj far_match) idle) = Raise ValueError.
Proof.
  assert (Hin : fst (time_ms (st_world idle)) - 300000000000000 <= 43200000)
    by (vm_compute; discriminate).
  destruct (process_match_requests far_match 300000000000000 idle
              eq_refl eq_refl Hin) as [Hreq Hraise].
  split; [exact Hreq | exact (Hraise eq_refl)].
Defined.


(** X7, on the sample host: the match whose [date] is null. *)
Lemma date_not_a_number_witness :
  fst (process_match (JObj null_date_match) idle) = Raise TypeError /\
  st_requests (snd (process_match (JObj null_date_match) idle)) = [].
Proof.
  assert (Hn : forall n, JNull <> JNum n) by discriminate.
  assert (Hb : forall b, JNull <> JBool b) by discriminate.
  pose proof (date_not_a_number null_date_match JNull idle eq_refl Hn Hb)
    as Hrun.
  rewrite Hrun. split; reflexivity.
Defined.

(** X13, on the sample host: the home team of the fresh match has a badge,
    the away team has none. *)
Lemma team_logos_witness :
  exists nm,
    fst (process_match (JObj fresh_match) idle) = Ok nm /\
    at_key "logo" (at_key "team1" nm)
    = JStr "https://streamed.pk/api/images/badge/lions-fc.webp" /\
    at_key "logo" (at_key "team2" nm) = JStr EmptyString.
Proof.
  assert (Hin : fst (time_ms (st_world idle)) - (boot - hour) <= 43200000)
    by (vm_compute; discriminate).
  destruct (team_logos fresh_match (boot - hour) "2023-11-14T21:13:20" idle
              eq_refl eq_refl eq_refl Hin)
    as (nm & Hnm & Hhome & _ & _ & Haway).
  exists nm. split; [exact Hnm|]. split.
  - apply (Hhome "lions-fc"); [reflexivity | discriminate].
  - apply Haway. reflexivity.
Defined.

(** X14, on the sample host: the fresh match keeps its title and names; the
    twin whose home name is null gets "None vs Away". *)
Lemma title_and_names_witness :
  (exists nm,
     fst (process_match (JObj fresh_match) idle) = Ok nm /\
     at_key "title" nm = JStr "Lions vs Tigers" /\
     at_key "name" (at_key "team1" nm) = JStr "Lions") /\
  (exists nm,
     fst (process_match (JObj twin_b) idle) = Ok nm /\
     at_key "title" nm = JStr "None vs Away" /\
     at_key "name" (at_key "team1" nm) = JNull /\
     at_key "name" (at_key "team2" nm) = JStr "Away Team").
Proof.
  assert (Hin : fst (time_ms (st_world idle)) - (boot - hour) <= 43200000)
    by (vm_compute; discriminate).
  split.
  - destruct (title_and_names fresh_match (boot - hour)
                "2023-11-14T21:13:20" idle eq_refl eq_refl eq_refl Hin)
      as (nm & Hnm & Htitle & Hhome & _).
    exists nm. split; [exact Hnm|]. split.
    + exact (Htitle eq_refl).
    + exact (Hhome (JStr "Lions") eq_refl).
  - destruct (title_and_names twin_b (boot - hour)
                "2023-11-14T21:13:20" idle eq_refl eq_refl eq_refl Hin)
      as (nm & Hnm & _ & _ & _ & _ & Hnull).
    exists nm. split; [exact Hnm|].
    exact (Hnull eq_refl eq_refl eq_refl).
Defined.

(** X8, on a run over a fresh match, an odd one and a bare one: the odd
    one raises, the run raises its exception and the files stay. *)
Lemma raising_task_aborts_run_witness :
  fst (main (host := more_host) odd_run) = Raise AttributeError /\
  st_output (snd (main (host := more_host) odd_run)) = Some "[]" /\
  st_log (snd (main (host := more_host) odd_run)) = ["earlier entry"].
Proof.
  pose (raws := [JObj fresh_match; JObj odd_match; JObj bare_match]).
  pose (s0 := snd (fetch_matches (host := more_host) odd_run)).
  pose (results :=
          match fst (executor_map (process_match (host := more_host))
                       raws s0) with
          | Ok l => l
          | Raise _ => []
          end).
  assert (H1 : fetch_matches (host := more_host) odd_run
               = (Ok (JList raws), s0))
    by (apply injective_projections; [vm_compute; reflexivity | reflexivity]).
  assert (H2 : executor_map (process_match (host := more_host)) raws s0
               = (Ok results,
                  snd (executor_map (process_match (host := more_host))
                         raws s0)))
    by (apply injective_projections; [vm_compute; reflexivity | reflexivity]).
  assert (H3 : first_raised results = Some AttributeError)
    by (vm_compute; reflexivity).
  destruct (raising_task_aborts_run (host := more_host) odd_run s0 _ raws
              results AttributeError H1 H2 H3)
    as (Hmain & Hout & Hlog).
  exact (conj Hmain (conj Hout Hlog)).
Defined.

(** X9, on the sample host: the API answers with an error object. *)
Lemma non_array_body_aborts_witness :
  fst (fetch_matches (before (serving error_document) None []))
  = Ok error_document /\
  fst (main (before (serving error_document) None []))
  = Raise AttributeError /\
  st_requests (snd (main (before (serving error_document) None [])))
  = [API_URL].
Proof.
  assert (Hnl : forall l, error_document <> JList l) by discriminate.
  destruct (non_array_body_aborts
              (before (serving error_document) None [])
              (snd (fetch_matches (before (serving error_document) None [])))
              error_document eq_refl eq_refl Hnl)
    as (Hmain & _).
  split; [reflexivity|]. rewrite Hmain. split; reflexivity.
Defined.

(** X10, on the sample host: a 203 answer is taken like a 200 one. *)
Lemma fetch_matches_returns_body_witness :
  fst (fetch_matches
         (before (world_with (Response 203 (dumps_sorted streams_alpha)))
            None []))
  = Ok streams_alpha.
Proof.
  assert (Hc : 203 < 400 \/ 600 <= 203) by (left; lia).
  exact (proj1 (fetch_matches_returns_body
                  (before (world_with
                             (Response 203 (dumps_sorted streams_alpha)))
                     None [])
                  203 (dumps_sorted streams_alpha) streams_alpha
                  eq_refl Hc eq_refl)).
Defined.

(** X12, on the sample host: the run after [first_run], in the state it
    left, ends normally with the snapshot and the log as it found them. *)
Lemma rerun_writes_nothing_witness :
  exists t1,
    main after_first = (Ok tt, t1) /\
    st_output t1 = st_output after_first /\
    st_log t1 = st_log after_first.
Proof.
  assert (H1 : fetch_matches first_run
               = (Ok (JList [JObj fresh_match; JObj stale_match]),
                  snd (fetch_matches first_run)))
    by (apply injective_projections; [vm_compute; reflexivity | reflexivity]).
  assert (H3 : build_schedule (JList [JObj fresh_match; JObj stale_match])
                 (snd (fetch_matches first_run))
               = (Ok [fresh_normalized],
                  snd (build_schedule
                         (JList [JObj fresh_match; JObj stale_match])
                         (snd (fetch_matches first_run)))))
    by (apply injective_projections; [vm_compute; reflexivity | reflexivity]).
  assert (H4 : fetch_matches (snd (main first_run))
               = (Ok (JList [JObj fresh_match; JObj stale_match]),
                  snd (fetch_matches after_first)))
    by (apply injective_projections; [vm_compute; reflexivity | reflexivity]).
  assert (H6 : build_schedule (JList [JObj fresh_match; JObj stale_match])
                 (snd (fetch_matches after_first))
               = (Ok [fresh_normalized],
                  snd (build_schedule
                         (JList [JObj fresh_match; JObj stale_match])
                         (snd (fetch_matches after_first)))))
    by (apply injective_projections; [vm_compute; reflexivity | reflexivity]).
  assert (H7 : json_loads (json_dump_indent2 (JList [fresh_normalized]))
               = Some (JList [fresh_normalized]))
    by (vm_compute; reflexivity).
  eexists.
  exact (rerun_writes_nothing first_run _ _ _ _ _ _ _
           H1 eq_refl H3 H4 eq_refl H6 H7).
Defined.

(** X15, on the channel API: a timeout, an error status, and a body that
    is an array; the playlist that was there stays. *)
Lemma playlist_fetch_failure_witness :
  fst (generate_m3u (host := playlist_host) (iptv_state Failed)
         (Some "old playlist"))
  = (Exited 1, after_channels_request (host := playlist_host)
                 (iptv_state Failed)) /\
  snd (generate_m3u (host := playlist_host) (iptv_state Failed)
         (Some "old playlist"))
  = Some "old playlist" /\
  snd (generate_m3u (host := playlist_host)
         (iptv_state (Response 502 "Bad Gateway")) None)
  = None /\
  fst (fst (generate_m3u (host := playlist_host)
              (iptv_state (Response 200 "[]")) None))
  = Exited 1.
Proof.
  assert (H1 : channels_fetch_fails (host := playlist_host)
                 (iptv_state Failed))
    by (apply channels_request_raises; reflexivity).
  assert (H2 : channels_fetch_fails (host := playlist_host)
                 (iptv_state (Response 502 "Bad Gateway")))
    by (apply channels_error_status with (code := 502) (text := "Bad Gateway");
        [reflexivity | lia]).
  assert (H3 : channels_fetch_fails (host := playlist_host)
                 (iptv_state (Response 200 "[]")))
    by (apply channels_not_object
          with (code := 200) (text := "[]") (data := JList []);
        reflexivity).
  rewrite (playlist_fetch_failure (host := playlist_host)
             (iptv_state Failed) (Some "old playlist") H1).
  rewrite (playlist_fetch_failure (host := playlist_host)
             (iptv_state (Response 502 "Bad Gateway")) None H2).
  rewrite (playlist_fetch_failure (host := playlist_host)
             (iptv_state (Response 200 "[]")) None H3).
  repeat split.
Defined.

Lemma iptv_answer (data : dict) :
  loads playlist_corpus (dumps_sorted (JObj data)) = Some (JObj data) ->
  channels_answer (host := playlist_host) (iptv_answers data) data.
Proof.
  intros Hl. exists 200, (dumps_sorted (JObj data)).
  split; [reflexivity|]. split; [left; lia | exact Hl].
Qed.

(** X16, on the channel API: the API reports failure, and the API sends
    null for [channels]; the playlist is not opened. *)
Lemma playlist_not_opened_witness :
  generate_m3u (host := playlist_host) (iptv_answers iptv_failed)
    (Some "old playlist")
  = (Returned, after_channels_request (host := playlist_host)
                 (iptv_answers iptv_failed), Some "old playlist") /\
  generate_m3u (host := playlist_host) (iptv_answers iptv_null_channels)
    (Some "old playlist")
  = (Exited 1, after_channels_request (host := playlist_host)
                 (iptv_answers iptv_null_channels), Some "old playlist").
Proof.
  split.
  - apply (playlist_not_opened (host := playlist_host)
             (iptv_answers iptv_failed) (Some "old playlist") iptv_failed).
    + apply iptv_answer. reflexivity.
    + reflexivity.
  - apply (proj2 (playlist_not_opened (host := playlist_host)
                    (iptv_answers iptv_null_channels) (Some "old playlist")
                    iptv_null_channels
                    (iptv_answer iptv_null_channels eq_refl))
             eq_refl TypeError).
    reflexivity.
Defined.

(** X17, on the channel API: three channels, six lines after the header. *)
Lemma playlist_written_witness :
  generate_m3u (host := playlist_host) (iptv_answers iptv_ok)
    (Some "old playlist")
  = (Returned,
     after_channels_request (host := playlist_host) (iptv_answers iptv_ok),
     Some (m3u_header
           ++ channel_entry (host := playlist_host) (JObj channel_news)
           ++ channel_entry (host := playlist_host) (JObj channel_bare)
           ++ channel_entry (host := playlist_host) (JObj channel_nowhere))).
Proof.
  assert (Hascii : Forall (fun c => ascii_only
                                      (channel_entry (host := playlist_host) c)
                                    = true)
                     [JObj channel_news; JObj channel_bare;
                      JObj channel_nowhere])
    by (repeat (constructor; [vm_compute; reflexivity|]); constructor).
  exact (proj1 (playlist_written (host := playlist_host)
                  (iptv_answers iptv_ok) (Some "old playlist") iptv_ok
                  [JObj channel_news; JObj channel_bare; JObj channel_nowhere]
                  (iptv_answer iptv_ok eq_refl)
                  eq_refl eq_refl eq_refl Hascii)).
Defined.

(** X18, on the channel API: the second channel of three cannot be
    processed; the playlist ends after the first. *)
Lemma playlist_cut_short_witness :
  generate_m3u (host := playlist_host) (iptv_answers iptv_cut)
    (Some "old playlist")
  = (Exited 1,
     after_channels_request (host := playlist_host) (iptv_answers iptv_cut),
     Some (m3u_header
           ++ channel_entry (host := playlist_host) (JObj channel_news))).
Proof.
  assert (Hascii : Forall (fun c => ascii_only
                                      (channel_entry (host := playlist_host) c)
                                    = true)
                     [JObj channel_news])
    by (repeat (constructor; [vm_compute; reflexivity|]); constructor).
  exact (playlist_cut_short (host := playlist_host)
           (iptv_answers iptv_cut) (Some "old playlist") iptv_cut
           [JObj channel_news] [JObj channel_bare] (JObj channel_odd)
           TypeError
           (iptv_answer iptv_cut eq_refl)
           eq_refl eq_refl eq_refl Hascii eq_refl).
Defined.

(** X19, on the sample channels: the news channel has categories and a
    stream, the bare one only a website, the third an empty [url]. *)
Lemma channel_lines_content_witness :
  channel_lines (host := playlist_host) (JObj channel_news)
  = Ok (extinf_line (host := playlist_host) (JStr "bbc") (JStr "BBC News")
          (JStr "GB") "news;world",
        "http://bbc/stream") /\
  channel_lines (host := playlist_host) (JObj channel_bare)
  = Ok (extinf_line (host := playlist_host) (JStr EmptyString)
          (JStr "Unknown Channel") (JStr EmptyString) "Uncategorized",
        "http://site") /\
  stream_url_of (host := playlist_host) channel_nowhere
  = "# No URL found in JSON".
Proof.
  refine (conj _ (conj _ _)).
  - assert (Hne : ["news"; "world"] <> []) by discriminate.
    exact (proj1 (proj2 (channel_lines_content (host := playlist_host)
                           channel_news))
             ["news"; "world"] Hne eq_refl).
  - exact (proj1 (channel_lines_content (host := playlist_host) channel_bare)
             eq_refl).
  - exact (proj2 (proj2 (proj2 (proj2 (proj2
             (channel_lines_content (host := playlist_host)
                channel_nowhere)))))
             eq_refl eq_refl eq_refl).
Defined.

(** X20, on the sample channels: a string where a channel should be, and
    the channel with a number among its categories. *)
Lemma channel_lines_raises_witness :
  channel_lines (host := playlist_host) (JStr "bbc") = Raise AttributeError /\
  channel_lines (host := playlist_host) (JObj channel_odd) = Raise TypeError.
Proof.
  split.
  - exact (proj1 (channel_lines_raises (host := playlist_host) (JStr "bbc"))
             eq_refl).
  - apply (proj1 (proj2 (channel_lines_raises (host := playlist_host)
                           (JObj channel_odd)))
             channel_odd TypeError eq_refl).
    split; [reflexivity|].
    assert (Hitem : forall str, JNum 7 <> JStr str) by discriminate.
    exact (proj1 (proj2 (proj2 (channel_lines_raises (host := playlist_host)
                                  (JObj channel_odd))))
             ["news"] (JNum 7) [] Hitem).
Defined.

(** X22, on the sample host: a match dated 10^400 ms before the epoch. *)
Lemma date_beyond_float_range_witness :
  fst (process_match (JObj ancient_match) idle) = Raise OverflowError /\
  st_requests (snd (process_match (JObj ancient_match) idle)) = [].
Proof.
  apply (date_beyond_float_range ancient_match (- (10 ^ 400)) idle).
  - reflexivity.
  - vm_compute. reflexivity.
Defined.

End FurtherRuns.
